(** * A browser-side HTTP client: token store, session check, request pipeline

    Shallow embedding of [frontend/lib/api-client.ts] (the [ApiClient] class
    and [taskApi]) and of the authentication helpers ([signIn],
    [checkAuthState], [refreshToken], ...).

    Asynchronous functions are modelled in a small monad that threads the
    browser storage and a chronological log of observable effects, and that
    completes by returning, by throwing, or not at all.  What the JavaScript
    platform provides ([atob], [JSON.parse], the clock, the backend behind
    [fetch]) is taken as a parameter. *)

From stdpp Require Import gmap strings list fin_maps pretty.
From Stdlib Require Import ZArith Ascii String.

Local Open Scope string_scope.
Local Open Scope Z_scope.

Set Warnings "-register-all".

(** ** JavaScript values *)

(** The values the two files handle: what [JSON.parse] and [response.json()]
    produce, plus [undefined] and built-in functions found on a prototype.
    Numbers are integer valued.  An object is its list of own properties;
    reading a property takes the first binding of the key. *)
Inductive JSValue : Type :=
| JUndefined
| JNull
| JBool (b : bool)
| JNum (n : Z)
| JStr (s : string)
| JArr (items : list JSValue)
| JObj (fields : list (string * JSValue))
| JFun (name : string).

(** The double quote character, for JSON text in examples. *)
Definition dq : string := String (ascii_of_nat 34) EmptyString.

(** [ToBoolean]: what [if (v)], [!v], [v || w] and [v && w] test. *)
Definition truthy (v : JSValue) : bool :=
  match v with
  | JUndefined | JNull => false
  | JBool b => b
  | JNum n => negb (n =? 0)
  | JStr s => negb (String.eqb s "")
  | JArr _ | JObj _ | JFun _ => true
  end.

(** [a || b] on values. *)
Definition js_or (a b : JSValue) : JSValue := if truthy a then a else b.

Fixpoint assoc (k : string) (fs : list (string * JSValue)) : option JSValue :=
  match fs with
  | [] => None
  | (k', v) :: rest => if String.eqb k k' then Some v else assoc k rest
  end.

(** [v.k]: [None] stands for the [TypeError] raised when [v] is [null] or
    [undefined].  Primitives answer [undefined], except that strings inherit
    [String.prototype.sub]. *)
Definition get_prop (v : JSValue) (k : string) : option JSValue :=
  match v with
  | JUndefined | JNull => None
  | JObj fs => Some (default JUndefined (assoc k fs))
  | JStr _ => Some (if String.eqb k "sub" then JFun "sub" else JUndefined)
  | JBool _ | JNum _ | JArr _ | JFun _ => Some JUndefined
  end.

(** ** The platform *)

(** Library functions the code calls and does not define.  [None] is a
    thrown exception for [atob] and [JSON_parse], [undefined] for
    [JSON_stringify] and [NaN] for [StringToNumber].  [NumberToString] is
    the printing of a number outside the safe integer range, where
    JavaScript rounds the digits and, from 1e21 on, writes an exponent. *)
Record Platform : Type := {
  atob : string -> option string;
  JSON_parse : string -> option JSValue;
  JSON_stringify : JSValue -> option string;
  ObjectToString : JSValue -> string;
  StringToNumber : string -> option Z;
  NumberToString : Z -> string;
  Date_now : Z;
  Date_toISOString : string
}.

(** [Number.isSafeInteger]: at most [2^53 - 1] in absolute value. *)
Definition safe_integer (n : Z) : bool := Z.abs n <=? 9007199254740991.

(** [String(v)] and the implicit string conversion of [setItem], template
    literals and the [Error] constructor.  A safe integer prints as its
    decimal digits; any other number is printed by the platform. *)
Definition ToString (P : Platform) (v : JSValue) : string :=
  match v with
  | JUndefined => "undefined"
  | JNull => "null"
  | JBool true => "true"
  | JBool false => "false"
  | JNum n => if safe_integer n then pretty n else NumberToString P n
  | JStr s => s
  | JArr _ | JObj _ | JFun _ => ObjectToString P v
  end.

(** [ToNumber]; [None] is [NaN]. *)
Definition ToNumber (P : Platform) (v : JSValue) : option Z :=
  match v with
  | JUndefined => None
  | JNull => Some 0
  | JBool b => Some (if b then 1 else 0)
  | JNum n => Some n
  | JStr s => StringToNumber P s
  | JArr _ | JObj _ | JFun _ => StringToNumber P (ObjectToString P v)
  end.

(** [v < n] for a number [n]: false as soon as [v] converts to [NaN]. *)
Definition js_lt (P : Platform) (v : JSValue) (n : Z) : bool :=
  match ToNumber P v with
  | Some x => x <? n
  | None => false
  end.

(** [s.split(sep)] for a one-character separator: every occurrence cuts,
    and the empty string splits into one empty segment. *)
Fixpoint split (sep : ascii) (s : string) : list string :=
  match s with
  | EmptyString => [EmptyString]
  | String c rest =>
      if Ascii.eqb c sep then EmptyString :: split sep rest
      else match split sep rest with
           | [] => [String c EmptyString]
           | seg :: segs => String c seg :: segs
           end
  end.

(** [parts[i]]; [undefined] out of range. *)
Definition index (parts : list string) (i : nat) : JSValue :=
  match parts !! i with
  | Some s => JStr s
  | None => JUndefined
  end.

(** ** Errors *)

Inductive ErrClass : Type :=
| ErrorC | TypeErrorC | SyntaxErrorC | ReferenceErrorC | DOMExceptionC.

Global Instance ErrClass_eq_dec : EqDecision ErrClass.
Proof. solve_decision. Defined.

(** A built-in exception object: its constructor, [name] and [message]. *)
Record JSError : Type := {
  err_class : ErrClass;
  err_name : string;
  err_message : string
}.

(** [class ApiError extends Error]. *)
Record ApiError : Type := {
  message : string;
  status : Z;
  errorCode : JSValue;
  timestamp : string;
  canRetry : bool
}.

Inductive Thrown : Type :=
| ThrowApi (e : ApiError)
| ThrowJs (e : JSError).

(** [new ApiError(message, status, errorCode, timestamp, canRetry)], with
    the constructor's defaults for absent arguments. *)
Definition new_ApiError (P : Platform) (msg : string) (st : Z)
    (code : option JSValue) (ts : option string) (retry : option bool) : ApiError :=
  {| message := msg;
     status := st;
     errorCode := default JNull code;
     timestamp := default (Date_toISOString P) ts;
     canRetry := default false retry |}.

(** The reason of [controller.abort()], with which a pending [fetch]
    rejects: a [DOMException] named [AbortError]. *)
Definition abort_error : JSError :=
  {| err_class := DOMExceptionC;
     err_name := "AbortError";
     err_message := "The operation was aborted." |}.

Definition type_error (msg : string) : JSError :=
  {| err_class := TypeErrorC; err_name := "TypeError"; err_message := msg |}.

Definition syntax_error (msg : string) : JSError :=
  {| err_class := SyntaxErrorC; err_name := "SyntaxError"; err_message := msg |}.

Definition plain_error (msg : string) : JSError :=
  {| err_class := ErrorC; err_name := "Error"; err_message := msg |}.

(** ** The network *)

(** The second argument of [fetch]; [signal] tells whether an abort signal
    wired to the request's own timer was passed. *)
Record FetchRequest : Type := {
  url : string;
  method : string;
  headers : gmap string string;
  body : option string;
  signal : bool
}.

(** A response whose body has arrived in full: [json] is what
    [response.json()] resolves to, [None] when the body is not JSON and the
    call rejects.  A body read that never completes is not represented. *)
Record Response : Type := {
  resp_status : Z;
  json : option JSValue
}.

(** [response.ok]. *)
Definition ok (r : Response) : bool :=
  (200 <=? resp_status r) && (resp_status r <=? 299).

Inductive NetBehaviour : Type :=
| Responds (r : Response)
| Fails (e : JSError)
| Stalls.

(** ** Effects and the monad *)

Inductive Effect : Type :=
| ESetTimeout (ms : Z)
| EClearTimeout
| EFetch (req : FetchRequest)
| ESetItem (key value : string)
| ERemoveItem (key : string)
| EConsoleError (label : string)
| ERedirect (target : string).

(** [storage] is [localStorage], absent when there is no [window]. *)
Record St : Type := {
  storage : option (gmap string string);
  trace : list Effect
}.

Inductive Completion (A : Type) : Type :=
| Return (a : A)
| Throw (t : Thrown)
| Hang.
Arguments Return {A} a.
Arguments Throw {A} t.
Arguments Hang {A}.

Definition M (A : Type) : Type := St -> Completion A * St.

Definition ret {A} (a : A) : M A := fun s => (Return a, s).

Definition bind {A B} (m : M A) (f : A -> M B) : M B := fun s =>
  match m s with
  | (Return a, s') => f a s'
  | (Throw t, s') => (Throw t, s')
  | (Hang, s') => (Hang, s')
  end.

Notation "'do' x <- m ; k" := (bind m (fun x => k))
  (at level 10, x name, m at level 100, k at level 200).

Definition throw {A} (t : Thrown) : M A := fun s => (Throw t, s).

Definition try_catch {A} (m : M A) (handler : Thrown -> M A) : M A := fun s =>
  match m s with
  | (Throw t, s') => handler t s'
  | r => r
  end.

Definition emit (e : Effect) : M unit := fun s =>
  (Return tt, {| storage := storage s; trace := trace s ++ [e] |}).

(** Lift a platform call that may throw. *)
Definition or_throw {A} (o : option A) (e : JSError) : M A :=
  match o with
  | Some a => ret a
  | None => throw (ThrowJs e)
  end.

(** [typeof window !== 'undefined']. *)
Definition has_window : M bool := fun s =>
  (Return (bool_decide (is_Some (storage s))), s).

Definition no_window : JSError :=
  {| err_class := ReferenceErrorC; err_name := "ReferenceError";
     err_message := "localStorage is not defined" |}.

Definition localStorage_getItem (key : string) : M (option string) := fun s =>
  match storage s with
  | Some m => (Return (m !! key), s)
  | None => (Throw (ThrowJs no_window), s)
  end.

Definition localStorage_setItem (key value : string) : M unit := fun s =>
  match storage s with
  | Some m => (Return tt, {| storage := Some (<[key := value]> m);
                             trace := trace s ++ [ESetItem key value] |})
  | None => (Throw (ThrowJs no_window), s)
  end.

Definition localStorage_removeItem (key : string) : M unit := fun s =>
  match storage s with
  | Some m => (Return tt, {| storage := Some (delete key m);
                             trace := trace s ++ [ERemoveItem key] |})
  | None => (Throw (ThrowJs no_window), s)
  end.

Definition console_error (label : string) : M unit := emit (EConsoleError label).

(** [!token] for [string | null]. *)
Definition no_token (t : option string) : bool :=
  match t with
  | None => true
  | Some s => String.eqb s ""
  end.

(** [fetch]: the request is logged and the backend [net] decides.  A
    stalled request rejects with [abort_error] once the timer behind its
    signal fires, and never settles without a signal. *)
Definition fetch (net : FetchRequest -> NetBehaviour) (req : FetchRequest) : M Response :=
  do _ <- emit (EFetch req);
  match net req with
  | Responds r => ret r
  | Fails e => throw (ThrowJs e)
  | Stalls => if signal req then throw (ThrowJs abort_error) else (fun s => (Hang, s))
  end.

(** [await response.json()]. *)
Definition response_json (r : Response) : M JSValue :=
  or_throw (json r) (syntax_error "Unexpected token").

(** [await response.json().catch(() => ({}))]. *)
Definition response_json_or_empty (r : Response) : M JSValue :=
  ret (default (JObj []) (json r)).

(** [v.k] as a step that may throw. *)
Definition prop (v : JSValue) (k : string) : M JSValue :=
  or_throw (get_prop v k) (type_error "Cannot read properties").

(** * The authentication helpers *)

Module Auth.

(** [{ isAuthenticated, user }] and the [User] it carries. *)
Record User : Type := {
  userId : JSValue;
  email : JSValue
}.

Record Session : Type := {
  isAuthenticated : bool;
  user : option User
}.

(** What [signIn] and [signUp] resolve to. *)
Record AuthResult : Type := {
  result_user : JSValue;
  token : JSValue
}.

Definition unauthenticated : Session :=
  {| isAuthenticated := false; user := None |}.

Section Operations.

Variable P : Platform.
Variable net : FetchRequest -> NetBehaviour.
Variable API_BASE_URL : string.

Definition getAuthToken : M (option string) :=
  do w <- has_window;
  if w then localStorage_getItem "auth_token" else ret None.

Definition setAuthToken (token : JSValue) : M unit :=
  do w <- has_window;
  if w then localStorage_setItem "auth_token" (ToString P token) else ret tt.

Definition removeAuthToken : M unit :=
  do w <- has_window;
  if w then localStorage_removeItem "auth_token" else ret tt.

Definition json_headers : gmap string string :=
  {[ "Content-Type" := "application/json" ]}.

Definition bearer_headers (token : string) : gmap string string :=
  <[ "Authorization" := "Bearer " +:+ token ]> json_headers.

Definition credentials (email password : string) : JSValue :=
  JObj [("email", JStr email); ("password", JStr password)].

(** The [fetch] arguments of [signIn] and [signUp]. *)
Definition auth_request (path email password : string) : FetchRequest :=
  {| url := API_BASE_URL +:+ path;
     method := "POST";
     headers := json_headers;
     body := JSON_stringify P (credentials email password);
     signal := false |}.

(** The [fetch] arguments of [getCurrentUser]. *)
Definition me_request (token : string) : FetchRequest :=
  {| url := API_BASE_URL +:+ "/api/v1/auth/me";
     method := "GET";
     headers := bearer_headers token;
     body := None;
     signal := false |}.

(** The [fetch] arguments of [refreshToken]. *)
Definition refresh_request (token : string) : FetchRequest :=
  {| url := API_BASE_URL +:+ "/api/v1/auth/refresh";
     method := "POST";
     headers := bearer_headers token;
     body := None;
     signal := false |}.

Definition signIn (email password : string) : M AuthResult :=
  try_catch
    (do response <- fetch net (auth_request "/api/v1/auth/signin" email password);
     if negb (ok response) then
       do errorData <- response_json_or_empty response;
       do detail <- prop errorData "detail";
       throw (ThrowJs (plain_error (ToString P (js_or detail (JStr "Sign in failed")))))
     else
       do data <- response_json response;
       do access_token <- prop data "access_token";
       do user <- prop data "user";
       do _ <- setAuthToken access_token;
       ret {| result_user := user; token := access_token |})
    (fun error => do _ <- console_error "Sign in error:"; throw error).

Definition signUp (email password : string) : M AuthResult :=
  try_catch
    (do response <- fetch net (auth_request "/api/v1/auth/signup" email password);
     if negb (ok response) then
       do errorData <- response_json_or_empty response;
       do detail <- prop errorData "detail";
       throw (ThrowJs (plain_error (ToString P (js_or detail (JStr "Sign up failed")))))
     else
       do data <- response_json response;
       do access_token <- prop data "access_token";
       do user <- prop data "user";
       do _ <- setAuthToken access_token;
       ret {| result_user := user; token := access_token |})
    (fun error => do _ <- console_error "Sign up error:"; throw error).

Definition signOut : M unit := removeAuthToken.

Definition checkAuthState : M Session :=
  do w <- has_window;
  if negb w then ret unauthenticated else
  do token <- getAuthToken;
  if no_token token then ret unauthenticated else
  let token := default "" token in
  try_catch
    (let tokenParts := split "." token in
     if negb (List.length tokenParts =? 3)%nat then ret unauthenticated else
     do decoded <- or_throw (atob P (ToString P (index tokenParts 1)))
                        {| err_class := DOMExceptionC;
                           err_name := "InvalidCharacterError";
                           err_message := "The string is not correctly encoded." |};
     do payload <- or_throw (JSON_parse P decoded) (syntax_error "Unexpected token");
     do sub <- prop payload "sub";
     do mail <- prop payload "email";
     let user := {| userId := sub; email := js_or mail (JStr "") |} in
     let currentTime := Date_now P `div` 1000 in
     do exp <- prop payload "exp";
     if truthy exp && js_lt P exp currentTime then
       do _ <- removeAuthToken; ret unauthenticated
     else
       ret {| isAuthenticated := true; user := Some user |})
    (fun error =>
       do _ <- console_error "Error decoding token:";
       do _ <- removeAuthToken;
       ret unauthenticated).

(** The [try] block ends in [return response.json()], without [await]:
    the body is read after the block has been left, so a rejected read is
    neither logged nor caught. *)
Definition getCurrentUser : M JSValue :=
  do token <- getAuthToken;
  if no_token token then
    throw (ThrowJs (plain_error "No authentication token found"))
  else
  let token := default "" token in
  do response <-
    try_catch
      (do response <- fetch net (me_request token);
       if negb (ok response) then
         throw (ThrowJs (plain_error "Failed to fetch user data"))
       else ret response)
      (fun error => do _ <- console_error "Error fetching user:"; throw error);
  response_json response.

Definition refreshToken : M JSValue :=
  do token <- getAuthToken;
  if no_token token then ret JNull else
  let token := default "" token in
  try_catch
    (do response <- fetch net (refresh_request token);
     if negb (ok response) then
       do _ <- removeAuthToken; ret JNull
     else
       do data <- response_json response;
       do newToken <- prop data "access_token";
       do _ <- setAuthToken newToken;
       ret newToken)
    (fun error =>
       do _ <- console_error "Error refreshing token:";
       do _ <- removeAuthToken;
       ret JNull).

End Operations.

End Auth.


(** * The API client *)

Module ApiClient.

Record ApiClientConfig : Type := {
  baseUrl : string;
  tokenKey : string;
  timeout : Z
}.

(** [interface RequestOptions]: both fields optional. *)
Record RequestOptions : Type := {
  opt_headers : option (gmap string string);
  opt_timeout : option Z
}.

(** The fields of [RequestInit] that [request] and its callers touch;
    [init_signal] tells whether the caller supplied a signal. *)
Record RequestInit : Type := {
  init_method : option string;
  init_headers : option (gmap string string);
  init_body : option string;
  init_signal : bool
}.

(** The first two entries of the [headers] literal in [request]. *)
Definition default_headers (token : string) : gmap string string :=
  {[ "Content-Type" := "application/json";
     "Authorization" := "Bearer " +:+ token ]}.

(** [{ ...defaults, ...overrides }]: a later key replaces an earlier one,
    and spreading [undefined] adds nothing. *)
Definition spread (defaults : gmap string string)
    (overrides : option (gmap string string)) : gmap string string :=
  default ∅ overrides ∪ defaults.

(** [a || b] where the right operand is only evaluated when needed. *)
Definition or_else (a : JSValue) (b : M JSValue) : M JSValue :=
  if truthy a then ret a else b.

(** [process.env.NAME || fallback]. *)
Definition env_or (v : option string) (fallback : string) : string :=
  if no_token v then fallback else default fallback v.

Section Client.

Variable P : Platform.
Variable net : FetchRequest -> NetBehaviour.
Variable config : ApiClientConfig.

(** The [switch] over [response.status]. *)
Definition status_message (st : Z) (errorData : JSValue) : M string :=
  if st =? 400 then ret "Invalid request"
  else if st =? 403 then ret "You don't have access to this resource"
  else if st =? 404 then ret "The requested item was not found"
  else if st =? 422 then ret "Please check your input"
  else if st =? 500 then ret "Something went wrong. Please try again."
  else do m <- prop errorData "message";
       ret (ToString P (js_or m (JStr "Request failed"))).

(** The [catch] block of [request]. *)
Definition on_error (armed : bool) (error : Thrown) : M JSValue :=
  do _ <- (if armed then emit EClearTimeout else ret tt);
  match error with
  | ThrowApi _ => throw error
  | ThrowJs e =>
      if bool_decide (err_class e = TypeErrorC) && String.eqb (err_name e) "AbortError"
      then throw (ThrowApi (new_ApiError P "Request timeout" 0
                              (Some JNull) None (Some true)))
      else throw (ThrowApi (new_ApiError P "Network error. Check your connection." 0
                              (Some JNull) None (Some true)))
  end.

(** What [request] does with the response once [fetch] has resolved. *)
Definition on_response (armed : bool) (response : Response) : M JSValue :=
  do _ <- (if armed then emit EClearTimeout else ret tt);
  if resp_status response =? 401 then
    do w <- has_window;
    do _ <- (if w then localStorage_removeItem (tokenKey config) else ret tt);
    throw (ThrowApi (new_ApiError P "Unauthorized access" 401
                       (Some (JStr "AUTH_001")) None (Some false)))
  else if negb (ok response) then
    do errorData <- response_json_or_empty response;
    do error_code <- prop errorData "error_code";
    do errorCode <- or_else error_code
                      (do c <- prop errorData "errorCode"; ret (js_or c JNull));
    do message <- status_message (resp_status response) errorData;
    throw (ThrowApi (new_ApiError P message (resp_status response)
                       (Some errorCode) (Some (Date_toISOString P))
                       (Some ((500 <=? resp_status response)
                              || (resp_status response =? 0)))))
  else if resp_status response =? 204 then ret JUndefined
  else response_json response.

(** The [try]/[catch] statement of [request]. *)
Definition send (armed : bool) (req : FetchRequest) : M JSValue :=
  try_catch
    (do response <- fetch net req; on_response armed response)
    (on_error armed).

(** [const timeout = options.signal ? undefined : this.config.timeout]. *)
Definition effective_timeout (options : RequestInit) : option Z :=
  if init_signal options then None else Some (timeout config).

(** [if (timeout)]: a controller and a timer exist for a non-zero delay. *)
Definition arms (options : RequestInit) : bool :=
  match effective_timeout options with
  | Some ms => negb (ms =? 0)
  | None => false
  end.

(** The arguments of the [fetch] call:
    [{ ...options, headers, signal: controller?.signal }]. *)
Definition fetch_args (endpoint : string) (options : RequestInit) (token : string)
    : FetchRequest :=
  {| url := baseUrl config +:+ endpoint;
     method := default "GET" (init_method options);
     headers := spread (default_headers token) (init_headers options);
     body := init_body options;
     signal := arms options |}.

Definition request (endpoint : string) (options : RequestInit) : M JSValue :=
  do w <- has_window;
  do token <- (if w then localStorage_getItem (tokenKey config) else ret None);
  if no_token token then
    throw (ThrowApi (new_ApiError P "No authentication token found" 401
                       (Some (JStr "AUTH_001")) None (Some false)))
  else
  let token := default "" token in
  do _ <- (if arms options
           then emit (ESetTimeout (default 0 (effective_timeout options)))
           else ret tt);
  send (arms options) (fetch_args endpoint options token).

Definition get (endpoint : string) (options : option RequestOptions) : M JSValue :=
  request endpoint {| init_method := Some "GET";
                      init_headers := options ≫= opt_headers;
                      init_body := None;
                      init_signal := false |}.

Definition post (endpoint : string) (data : JSValue) (options : option RequestOptions)
    : M JSValue :=
  request endpoint {| init_method := Some "POST";
                      init_headers := options ≫= opt_headers;
                      init_body := JSON_stringify P data;
                      init_signal := false |}.

Definition put (endpoint : string) (data : JSValue) (options : option RequestOptions)
    : M JSValue :=
  request endpoint {| init_method := Some "PUT";
                      init_headers := options ≫= opt_headers;
                      init_body := JSON_stringify P data;
                      init_signal := false |}.

Definition patch (endpoint : string) (data : JSValue) (options : option RequestOptions)
    : M JSValue :=
  request endpoint {| init_method := Some "PATCH";
                      init_headers := options ≫= opt_headers;
                      init_body := JSON_stringify P data;
                      init_signal := false |}.

Definition delete (endpoint : string) (options : option RequestOptions) : M JSValue :=
  do _ <- request endpoint {| init_method := Some "DELETE";
                              init_headers := options ≫= opt_headers;
                              init_body := None;
                              init_signal := false |};
  ret JUndefined.

End Client.

(** [const apiClient = new ApiClient({...})]. *)
Definition apiClient (NEXT_PUBLIC_API_BASE_URL : option string) : ApiClientConfig :=
  {| baseUrl := env_or NEXT_PUBLIC_API_BASE_URL "http://localhost:8000";
     tokenKey := "auth_token";
     timeout := 10000 |}.

End ApiClient.


(** * The authenticated request helper *)

Module AuthRequest.

Section ApiRequest.

Variable P : Platform.
Variable net : FetchRequest -> NetBehaviour.
Variable API_BASE_URL : string.

(** ["Content-Type"] and [...(token && { Authorization })]: a [null] or
    empty token spreads nothing. *)
Definition token_headers (token : option string) : gmap string string :=
  if no_token token then Auth.json_headers
  else <[ "Authorization" := "Bearer " +:+ default "" token ]> Auth.json_headers.

(** The arguments of the [fetch] call, [{ ...options, headers }].  The
    helper arms no timer, so no signal of its own is attached. *)
Definition apiRequest_args (endpoint : string) (options : ApiClient.RequestInit)
    (token : option string) : FetchRequest :=
  {| url := API_BASE_URL +:+ endpoint;
     method := default "GET" (ApiClient.init_method options);
     headers := ApiClient.spread (token_headers token) (ApiClient.init_headers options);
     body := ApiClient.init_body options;
     signal := false |}.

Definition apiRequest (endpoint : string) (options : ApiClient.RequestInit) : M JSValue :=
  do token <- Auth.getAuthToken;
  do response <- fetch net (apiRequest_args endpoint options token);
  if negb (ok response) then
    do errorData <- response_json_or_empty response;
    do detail <- prop errorData "detail";
    throw (ThrowJs (plain_error
                      (ToString P
                         (js_or detail
                            (JStr ("HTTP error! status: "
                                   +:+ ToString P (JNum (resp_status response))))))))
  else response_json response.

End ApiRequest.

End AuthRequest.


(** * The task API *)

Module TaskApi.

(** Modelled from the spec: [TaskQueryParams] is declared in [@/types],
    which is not among the sources; the spec names its optional query
    parameters [is_completed], [limit] and [offset], the three fields
    [getTasks] reads.  [None] is [undefined]. *)
Record TaskQueryParams : Type := {
  is_completed : option bool;
  limit : option Z;
  offset : option Z
}.

(** ** [URLSearchParams] *)

Definition in_range (lo hi c : ascii) : bool :=
  ((N_of_ascii lo <=? N_of_ascii c) && (N_of_ascii c <=? N_of_ascii hi))%N.

(** Bytes the [application/x-www-form-urlencoded] serializer leaves alone. *)
Definition unreserved (c : ascii) : bool :=
  in_range "0" "9" c || in_range "a" "z" c || in_range "A" "Z" c
  || Ascii.eqb c "*" || Ascii.eqb c "-" || Ascii.eqb c "." || Ascii.eqb c "_".

Definition hex_digit (n : N) : ascii :=
  if (n <? 10)%N then ascii_of_N (48 + n) else ascii_of_N (55 + n).

Definition urlencode_byte (c : ascii) : string :=
  if unreserved c then String c EmptyString
  else if Ascii.eqb c " " then "+"
  else String "%" (String (hex_digit (N_of_ascii c / 16))
                     (String (hex_digit (N_of_ascii c mod 16)) EmptyString)).

Fixpoint urlencode (s : string) : string :=
  match s with
  | EmptyString => EmptyString
  | String c rest => urlencode_byte c +:+ urlencode rest
  end.

(** [new URLSearchParams()], [append] and [toString]. *)
Definition URLSearchParams : Type := list (string * string).

Definition append (q : URLSearchParams) (name value : string) : URLSearchParams :=
  (q ++ [(name, value)])%list.

Definition serialize_pair (nv : string * string) : string :=
  urlencode nv.1 +:+ "=" +:+ urlencode nv.2.

Definition toString (q : URLSearchParams) : string :=
  String.concat "&" (map serialize_pair q).

Section Verbs.

Variable P : Platform.
Variable net : FetchRequest -> NetBehaviour.
Variable NEXT_PUBLIC_API_BASE_URL : option string.

Let client := ApiClient.apiClient NEXT_PUBLIC_API_BASE_URL.

(** [params?.field]. *)
Definition field {A} (params : option TaskQueryParams)
    (f : TaskQueryParams -> option A) : option A :=
  params ≫= f.

(** The query parameters [getTasks] appends, in program order. *)
Definition getTasks_query (params : option TaskQueryParams) : URLSearchParams :=
  let queryParams : URLSearchParams := [] in
  let queryParams :=
    match field params is_completed with
    | Some b => append queryParams "is_completed" (ToString P (JBool b))
    | None => queryParams
    end in
  let queryParams :=
    match field params limit with
    | Some n => append queryParams "limit" (ToString P (JNum n))
    | None => queryParams
    end in
  let queryParams :=
    match field params offset with
    | Some n => append queryParams "offset" (ToString P (JNum n))
    | None => queryParams
    end in
  queryParams.

(** The endpoint [getTasks] passes to [apiClient.get]. *)
Definition getTasks_endpoint (params : option TaskQueryParams) : string :=
  let queryString := toString (getTasks_query params) in
  if negb (String.eqb queryString "") then "/api/v1/tasks?" +:+ queryString
  else "/api/v1/tasks".

Definition getTasks (params : option TaskQueryParams) : M JSValue :=
  ApiClient.get P net client (getTasks_endpoint params) None.

Definition task_path (id : Z) : string :=
  "/api/v1/tasks/" +:+ ToString P (JNum id).

Definition getTask (id : Z) : M JSValue :=
  ApiClient.get P net client (task_path id) None.

Definition createTask (data : JSValue) : M JSValue :=
  ApiClient.post P net client "/api/v1/tasks" data None.

Definition updateTask (id : Z) (data : JSValue) : M JSValue :=
  ApiClient.put P net client (task_path id) data None.

Definition patchTask (id : Z) (data : JSValue) : M JSValue :=
  ApiClient.patch P net client (task_path id) data None.

Definition deleteTask (id : Z) : M JSValue :=
  ApiClient.delete P net client (task_path id) None.

End Verbs.

End TaskApi.

(** * A platform and backends to run the model on *)

Module Sample.

(** The payload text [{"sub":"u1","exp":<exp>}]. *)
Definition payload_text (exp : string) : string :=
  "{" +:+ dq +:+ "sub" +:+ dq +:+ ":" +:+ dq +:+ "u1" +:+ dq +:+ ","
      +:+ dq +:+ "exp" +:+ dq +:+ ":" +:+ exp +:+ "}".

(** The base64 texts below are the encodings of [payload_text "0"] and
    [payload_text "1"]; every other input is rejected. *)
Definition sample_atob (s : string) : option string :=
  if String.eqb s "eyJzdWIiOiJ1MSIsImV4cCI6MH0" then Some (payload_text "0")
  else if String.eqb s "eyJzdWIiOiJ1MSIsImV4cCI6MX0" then Some (payload_text "1")
  else None.

Definition sample_JSON_parse (s : string) : option JSValue :=
  if String.eqb s (payload_text "0") then
    Some (JObj [("sub", JStr "u1"); ("exp", JNum 0)])
  else if String.eqb s (payload_text "1") then
    Some (JObj [("sub", JStr "u1"); ("exp", JNum 1)])
  else None.

(** A browser at 2023-11-14T22:13:20Z.  The examples print no number
    outside the safe integer range. *)
Definition platform : Platform :=
  {| atob := sample_atob;
     JSON_parse := sample_JSON_parse;
     JSON_stringify := fun _ => Some "{}";
     ObjectToString := fun _ => "[object Object]";
     StringToNumber := fun _ => None;
     NumberToString := fun n => if n <? 0 then "-Infinity" else "Infinity";
     Date_now := 1700000000000;
     Date_toISOString := "2023-11-14T22:13:20.000Z" |}.

Definition stored (token : string) : St :=
  {| storage := Some {[ "auth_token" := token ]}; trace := [] |}.

Definition always (b : NetBehaviour) : FetchRequest -> NetBehaviour := fun _ => b.

End Sample.

(** * More tokens to run the session check on *)

Module Fixture.

Definition quoted (s : string) : string := dq +:+ s +:+ dq.

(** [{"sub":"u2","email":"u2@x.io"}]: no expiry claim. *)
Definition no_expiry_text : string :=
  "{" +:+ quoted "sub" +:+ ":" +:+ quoted "u2" +:+ ","
      +:+ quoted "email" +:+ ":" +:+ quoted "u2@x.io" +:+ "}".

(** [{"sub":"u3","exp":4102444800}]: expires in 2100. *)
Definition far_expiry_text : string :=
  "{" +:+ quoted "sub" +:+ ":" +:+ quoted "u3" +:+ ","
      +:+ quoted "exp" +:+ ":4102444800}".

(** The base64 texts are the encodings of the two payloads above and of
    [null]; whatever else [Sample.platform] decodes is decoded too. *)
Definition fixture_atob (s : string) : option string :=
  if String.eqb s "eyJzdWIiOiJ1MiIsImVtYWlsIjoidTJAeC5pbyJ9" then Some no_expiry_text
  else if String.eqb s "eyJzdWIiOiJ1MyIsImV4cCI6NDEwMjQ0NDgwMH0" then Some far_expiry_text
  else if String.eqb s "bnVsbA" then Some "null"
  else Sample.sample_atob s.

Definition fixture_JSON_parse (s : string) : option JSValue :=
  if String.eqb s no_expiry_text then
    Some (JObj [("sub", JStr "u2"); ("email", JStr "u2@x.io")])
  else if String.eqb s far_expiry_text then
    Some (JObj [("sub", JStr "u3"); ("exp", JNum 4102444800)])
  else if String.eqb s "null" then Some JNull
  else Sample.sample_JSON_parse s.

Definition platform : Platform :=
  {| atob := fixture_atob;
     JSON_parse := fixture_JSON_parse;
     JSON_stringify := JSON_stringify Sample.platform;
     ObjectToString := ObjectToString Sample.platform;
     StringToNumber := StringToNumber Sample.platform;
     NumberToString := NumberToString Sample.platform;
     Date_now := Date_now Sample.platform;
     Date_toISOString := Date_toISOString Sample.platform |}.

End Fixture.


(** * Reading the effect log *)

(** A run that starts with an empty log. *)
Definition start (sto : option (gmap string string)) : St :=
  {| storage := sto; trace := [] |}.

(** The requests handed to [fetch], in order. *)
Fixpoint fetched (tr : list Effect) : list FetchRequest :=
  match tr with
  | [] => []
  | EFetch req :: rest => req :: fetched rest
  | _ :: rest => fetched rest
  end.

(** The delays of the timers armed, in order. *)
Fixpoint timers (tr : list Effect) : list Z :=
  match tr with
  | [] => []
  | ESetTimeout ms :: rest => ms :: timers rest
  | _ :: rest => timers rest
  end.

(** The storage keys removed, in order. *)
Fixpoint removals (tr : list Effect) : list string :=
  match tr with
  | [] => []
  | ERemoveItem key :: rest => key :: removals rest
  | _ :: rest => removals rest
  end.

(** The navigations performed, in order. *)
Fixpoint redirects (tr : list Effect) : list string :=
  match tr with
  | [] => []
  | ERedirect target :: rest => target :: redirects rest
  | _ :: rest => redirects rest
  end.

(** Disarming a timer or dropping a storage key: what [request] may still
    do once its [fetch] call is under way. *)
Definition housekeeping (e : Effect) : Prop :=
  match e with
  | EClearTimeout | ERemoveItem _ => True
  | _ => False
  end.

(** [m] only appends to the log, and only effects satisfying [Q]. *)
Definition emits_only {A} (Q : Effect -> Prop) (m : M A) : Prop :=
  forall s, exists extra,
    trace (m s).2 = (trace s ++ extra)%list /\ Forall Q extra.

(** The token a state holds under [key], if any. *)
Definition stored_token (key : string) (sto : option (gmap string string))
    : option string :=
  sto ≫= (fun m => m !! key).

(** * Vocabulary of the statements *)

(** The session a decodable payload yields when the token is kept. *)
Definition session_of (fields : list (string * JSValue)) : Auth.Session :=
  {| Auth.isAuthenticated := true;
     Auth.user :=
       Some {| Auth.userId := default JUndefined (assoc "sub" fields);
               Auth.email := js_or (default JUndefined (assoc "email" fields))
                                   (JStr "") |} |}.

(** The log entries of a [setAuthToken] call. *)
Definition set_log (sto : option (gmap string string)) (value : string) : list Effect :=
  match sto with
  | Some _ => [ESetItem "auth_token" value]
  | None => []
  end.

(** [data.access_token] of the body of a response, when both reads succeed. *)
Definition new_token (r : Response) : option JSValue :=
  json r ≫= (fun data => get_prop data "access_token").

(** The log entry of the timer [request] arms. *)
Definition arm_log (config : ApiClient.ApiClientConfig) (options : ApiClient.RequestInit)
    : list Effect :=
  if ApiClient.arms config options then [ESetTimeout (ApiClient.timeout config)] else [].

(** The error a failed or timed-out network call is meant to become. *)
Definition network_error (P : Platform) : Thrown :=
  ThrowApi (new_ApiError P "Network error. Check your connection." 0
              (Some JNull) None (Some true)).

(** [error instanceof TypeError && error.name === 'AbortError']. *)
Definition looks_like_timeout (e : JSError) : bool :=
  bool_decide (err_class e = TypeErrorC) && String.eqb (err_name e) "AbortError".

(** The body [request] reads an error code and a message from. *)
Definition error_data (r : Response) : JSValue := default (JObj []) (json r).

(** What the [catch] block rethrows unchanged. *)
Definition thrown_api (c : Completion JSValue) : option ApiError :=
  match c with
  | Throw (ThrowApi e) => Some e
  | _ => None
  end.

(** Every request carries the stored token as its [Authorization] header,
    whatever headers the caller passes. *)
Definition authorization_always_bearer : Prop :=
  forall (P : Platform) (net : FetchRequest -> NetBehaviour)
         (config : ApiClient.ApiClientConfig) (endpoint : string)
         (options : ApiClient.RequestInit) (m : gmap string string)
         (tok : string) (req : FetchRequest),
    m !! ApiClient.tokenKey config = Some tok ->
    tok <> "" ->
    In req (fetched (trace (ApiClient.request P net config endpoint options
                              (start (Some m))).2)) ->
    headers req !! "Authorization" = Some ("Bearer " +:+ tok).

(** The pair a defined parameter contributes to the query. *)
Definition query_pair (name : string) (value : option string) : list (string * string) :=
  match value with
  | Some v => [(name, v)]
  | None => []
  end.

(** [name=value], with nothing escaped. *)
Definition plain_pair (nv : string * string) : string := nv.1 +:+ "=" +:+ nv.2.

(** [name=value], the value escaped by the serializer. *)
Definition encoded_pair (nv : string * string) : string :=
  nv.1 +:+ "=" +:+ TaskApi.urlencode nv.2.

(** The query parameters of [getTasks] that are not [undefined], in the
    order [is_completed], [limit], [offset], each with [String(value)]. *)
Definition present_params (P : Platform) (params : option TaskApi.TaskQueryParams)
    : list (string * string) :=
  (query_pair "is_completed"
     ((fun b : bool => ToString P (JBool b))
        <$> TaskApi.field params TaskApi.is_completed)
   ++ query_pair "limit"
        ((fun n : Z => ToString P (JNum n)) <$> TaskApi.field params TaskApi.limit)
   ++ query_pair "offset"
        ((fun n : Z => ToString P (JNum n)) <$> TaskApi.field params TaskApi.offset))%list.

(** The numeric parameters that are defined are safe integers. *)
Definition safe_params (params : option TaskApi.TaskQueryParams) : bool :=
  from_option safe_integer true (TaskApi.field params TaskApi.limit)
  && from_option safe_integer true (TaskApi.field params TaskApi.offset).

(** The storage is as before, or has lost [key] and nothing else. *)
Definition at_most_removed (key : string)
    (before after : option (gmap string string)) : Prop :=
  after = before \/ after = base.delete key <$> before.

(** Every run of [m] relates the state before and after by [R]. *)
Definition run_inv {A} (R : St -> St -> Prop) (m : M A) : Prop :=
  forall s, R s (m s).2.

(** The storage is the same in both states. *)
Definition same_storage (s s' : St) : Prop := storage s' = storage s.

(** The characters [urlencode] can produce. *)
Definition query_safe (c : ascii) : bool :=
  TaskApi.unreserved c || Ascii.eqb c "+" || Ascii.eqb c "%".

Fixpoint all_chars (f : ascii -> bool) (s : string) : bool :=
  match s with
  | EmptyString => true
  | String c rest => f c && all_chars f rest
  end.

(** The number of occurrences of [sep] in [s]. *)
Fixpoint occurrences (sep : ascii) (s : string) : nat :=
  match s with
  | EmptyString => 0
  | String c rest => (if Ascii.eqb c sep then 1 else 0) + occurrences sep rest
  end%nat.

(** What [signIn] and [signUp] do from a storage [sto] and a log [tr],
    case by case on the backend's answer to the request [req]; [label] is
    the console label and [fallback] the message used when the error body
    has no usable [detail]. *)
Definition sign_outcome (P : Platform) (net : FetchRequest -> NetBehaviour)
    (sto : option (gmap string string)) (tr : list Effect)
    (req : FetchRequest) (label fallback : string) : Completion Auth.AuthResult * St :=
  let sent := (tr ++ [EFetch req])%list in
  let failed (t : Thrown) :=
    (Throw t, {| storage := sto; trace := sent ++ [EConsoleError label] |}) in
  let unreadable := ThrowJs (type_error "Cannot read properties") in
  match net req with
  | Stalls => (Hang, {| storage := sto; trace := sent |})
  | Fails e => failed (ThrowJs e)
  | Responds r =>
      if ok r then
        match json r with
        | None => failed (ThrowJs (syntax_error "Unexpected token"))
        | Some data =>
            match get_prop data "access_token", get_prop data "user" with
            | Some access_token, Some user =>
                (Return {| Auth.result_user := user; Auth.token := access_token |},
                 {| storage := <["auth_token" := ToString P access_token]> <$> sto;
                    trace := sent ++ set_log sto (ToString P access_token) |})
            | _, _ => failed unreadable
            end
        end
      else
        match get_prop (error_data r) "detail" with
        | Some detail =>
            failed (ThrowJs (plain_error (ToString P (js_or detail (JStr fallback)))))
        | None => failed unreadable
        end
  end.

(** * Properties *)

(** Unfold the monad and the storage primitives in the goal. *)
Ltac run :=
  unfold bind, ret, throw, try_catch, emit, or_throw, prop, has_window,
    console_error, localStorage_getItem, localStorage_setItem,
    localStorage_removeItem, response_json, response_json_or_empty, fetch;
  simpl.

(** ** The monad *)

Lemma emits_ret {A} Q (a : A) : emits_only Q (ret a).
Proof. intros s. exists []. simpl. by rewrite app_nil_r. Qed.

Lemma emits_throw {A} Q t : emits_only Q (@throw A t).
Proof. intros s. exists []. simpl. by rewrite app_nil_r. Qed.

Lemma emits_emit (Q : Effect -> Prop) e : Q e -> emits_only Q (emit e).
Proof. intros HQ s. exists [e]. simpl. auto. Qed.

Lemma emits_bind {A B} Q (m : M A) (f : A -> M B) :
  emits_only Q m -> (forall a, emits_only Q (f a)) -> emits_only Q (bind m f).
Proof.
  intros Hm Hf s. unfold bind.
  destruct (Hm s) as (e1 & He1 & HQ1).
  destruct (m s) as [[a | t |] s1]; simpl in *.
  - destruct (Hf a s1) as (e2 & He2 & HQ2).
    exists (e1 ++ e2)%list. rewrite He2, He1, app_assoc.
    split; [done | by apply Forall_app].
  - by exists e1.
  - by exists e1.
Qed.

Lemma emits_try_catch {A} Q (m : M A) (h : Thrown -> M A) :
  emits_only Q m -> (forall t, emits_only Q (h t)) -> emits_only Q (try_catch m h).
Proof.
  intros Hm Hh s. unfold try_catch.
  destruct (Hm s) as (e1 & He1 & HQ1).
  destruct (m s) as [[a | t |] s1]; simpl in *.
  - by exists e1.
  - destruct (Hh t s1) as (e2 & He2 & HQ2).
    exists (e1 ++ e2)%list. rewrite He2, He1, app_assoc.
    split; [done | by apply Forall_app].
  - by exists e1.
Qed.

Lemma emits_or_throw {A} Q (o : option A) e : emits_only Q (or_throw o e).
Proof. destruct o; [apply emits_ret | apply emits_throw]. Qed.

Lemma emits_prop Q v k : emits_only Q (prop v k).
Proof. apply emits_or_throw. Qed.

Lemma emits_has_window Q : emits_only Q has_window.
Proof. intros s. exists []. simpl. by rewrite app_nil_r. Qed.

Lemma emits_removeItem (Q : Effect -> Prop) key :
  Q (ERemoveItem key) -> emits_only Q (localStorage_removeItem key).
Proof.
  intros HQ s. unfold localStorage_removeItem.
  destruct (storage s); simpl.
  - exists [ERemoveItem key]. auto.
  - exists []. by rewrite app_nil_r.
Qed.

Lemma emits_if {A} Q (b : bool) (m1 m2 : M A) :
  emits_only Q m1 -> emits_only Q m2 -> emits_only Q (if b then m1 else m2).
Proof. by destruct b. Qed.

Create HintDb effects.
#[export] Hint Resolve emits_ret emits_throw emits_emit emits_bind emits_try_catch
  emits_or_throw emits_prop emits_has_window emits_removeItem emits_if : effects.

Lemma fetched_app tr1 tr2 : fetched (tr1 ++ tr2) = (fetched tr1 ++ fetched tr2)%list.
Proof.
  induction tr1 as [| e tr1 IH]; [done |].
  destruct e; simpl; by rewrite ?IH.
Qed.

Lemma timers_app tr1 tr2 : timers (tr1 ++ tr2) = (timers tr1 ++ timers tr2)%list.
Proof.
  induction tr1 as [| e tr1 IH]; [done |].
  destruct e; simpl; by rewrite ?IH.
Qed.

Lemma housekeeping_quiet extra :
  Forall housekeeping extra -> fetched extra = [] /\ timers extra = [] /\ redirects extra = [].
Proof.
  induction 1 as [| e extra He _ IH]; [done |].
  destruct e; simpl in *; done.
Qed.

(** ** Splitting a token *)

Lemma split_nonempty sep s : split sep s <> [].
Proof.
  destruct s as [| c rest]; simpl; [done |].
  destruct (Ascii.eqb c sep); [done |].
  by destruct (split sep rest).
Qed.

Lemma no_token_three_segments tok :
  List.length (split "." tok) = 3%nat -> no_token (Some tok) = false.
Proof. by destruct tok. Qed.

(** ** The session check *)

(** C5: a stored token that does not split on [.] into exactly three
    segments makes [checkAuthState] answer the unauthenticated state, and
    the storage and the log are left as they were: the token is not
    cleared. *)
Theorem checkAuthState_malformed_token_kept (P : Platform)
    (m : gmap string string) (tr : list Effect) (tok : string) :
  m !! "auth_token" = Some tok ->
  List.length (split "." tok) <> 3%nat ->
  Auth.checkAuthState P {| storage := Some m; trace := tr |}
  = (Return Auth.unauthenticated, {| storage := Some m; trace := tr |}).
Proof.
  intros Hm Hlen.
  unfold Auth.checkAuthState, Auth.getAuthToken. run. rewrite Hm.
  destruct (no_token (Some tok)); [done |]. simpl.
  destruct (Nat.eqb_spec (List.length (split "." tok)) 3); [done |].
  reflexivity.
Qed.

Lemma checkAuthState_malformed_token_kept_witness :
  Auth.checkAuthState Sample.platform (Sample.stored "not-a-jwt")
  = (Return Auth.unauthenticated, Sample.stored "not-a-jwt").
Proof.
  apply (checkAuthState_malformed_token_kept Sample.platform
           {[ "auth_token" := "not-a-jwt" ]} [] "not-a-jwt").
  - reflexivity.
  - vm_compute. lia.
Defined.

(** A payload whose expiry is a non-zero number below the current time in
    whole seconds: the token is removed and the session is unauthenticated. *)
Lemma checkAuthState_expired_nonzero (P : Platform)
    (m : gmap string string) (tr : list Effect)
    (tok header seg sig text : string) (fields : list (string * JSValue)) (exp : Z) :
  m !! "auth_token" = Some tok ->
  split "." tok = [header; seg; sig] ->
  atob P seg = Some text ->
  JSON_parse P text = Some (JObj fields) ->
  assoc "exp" fields = Some (JNum exp) ->
  exp <> 0 ->
  exp < Date_now P `div` 1000 ->
  Auth.checkAuthState P {| storage := Some m; trace := tr |}
  = (Return Auth.unauthenticated,
     {| storage := Some (delete "auth_token" m);
        trace := tr ++ [ERemoveItem "auth_token"] |}).
Proof.
  intros Hm Hsplit Hatob Hparse Hexp Hnz Hlt.
  unfold Auth.checkAuthState, Auth.getAuthToken, Auth.removeAuthToken. run.
  rewrite Hm, no_token_three_segments by (by rewrite Hsplit). simpl.
  rewrite Hsplit. simpl. rewrite Hatob. simpl. rewrite Hparse. simpl.
  rewrite Hexp. simpl. unfold js_lt. simpl.
  destruct (Z.eqb_spec exp 0); [done |].
  destruct (Z.ltb_spec exp (Date_now P `div` 1000)); [done | lia].
Qed.

(** C4, at the input where the code departs from it: an expiry claim of 0
    is below every current time after the first second of 1970, and yet
    [checkAuthState] keeps the token and reports an authenticated session,
    because [payload.exp && ...] takes 0 for an absent claim. *)
Theorem checkAuthState_accepts_expiry_zero (P : Platform)
    (m : gmap string string) (tr : list Effect)
    (tok header seg sig text : string) (fields : list (string * JSValue)) :
  m !! "auth_token" = Some tok ->
  split "." tok = [header; seg; sig] ->
  atob P seg = Some text ->
  JSON_parse P text = Some (JObj fields) ->
  assoc "exp" fields = Some (JNum 0) ->
  0 < Date_now P `div` 1000 ->
  Auth.checkAuthState P {| storage := Some m; trace := tr |}
  = (Return (session_of fields), {| storage := Some m; trace := tr |}).
Proof.
  intros Hm Hsplit Hatob Hparse Hexp Hnow.
  unfold Auth.checkAuthState, Auth.getAuthToken. run.
  rewrite Hm, no_token_three_segments by (by rewrite Hsplit). simpl.
  rewrite Hsplit. simpl. rewrite Hatob. simpl. rewrite Hparse. simpl.
  by rewrite Hexp.
Qed.

Lemma checkAuthState_accepts_expiry_zero_witness :
  Auth.checkAuthState Sample.platform (Sample.stored "h.eyJzdWIiOiJ1MSIsImV4cCI6MH0.s")
  = (Return (session_of [("sub", JStr "u1"); ("exp", JNum 0)]),
     Sample.stored "h.eyJzdWIiOiJ1MSIsImV4cCI6MH0.s").
Proof.
  apply (checkAuthState_accepts_expiry_zero Sample.platform
           {[ "auth_token" := "h.eyJzdWIiOiJ1MSIsImV4cCI6MH0.s" ]} []
           "h.eyJzdWIiOiJ1MSIsImV4cCI6MH0.s" "h" "eyJzdWIiOiJ1MSIsImV4cCI6MH0" "s"
           (Sample.payload_text "0")).
  - reflexivity.
  - reflexivity.
  - reflexivity.
  - reflexivity.
  - reflexivity.
  - vm_compute. reflexivity.
Defined.

(** ** Signing in *)

(** C9: on a 2xx response whose body carries [access_token: t] and
    [user: u], [signIn] writes [t] under [auth_token] wherever a storage
    exists and resolves to [{user: u, token: t}], the token unchanged. *)
Theorem signIn_round_trip (P : Platform) (net : FetchRequest -> NetBehaviour)
    (base email password : string) (sto : option (gmap string string))
    (tr : list Effect) (r : Response) (fields : list (string * JSValue))
    (t : string) (u : JSValue) :
  net (Auth.auth_request P base "/api/v1/auth/signin" email password) = Responds r ->
  ok r = true ->
  json r = Some (JObj fields) ->
  assoc "access_token" fields = Some (JStr t) ->
  assoc "user" fields = Some u ->
  Auth.signIn P net base email password {| storage := sto; trace := tr |}
  = (Return {| Auth.result_user := u; Auth.token := JStr t |},
     {| storage := <["auth_token" := t]> <$> sto;
        trace := tr ++ EFetch (Auth.auth_request P base "/api/v1/auth/signin"
                                 email password) :: set_log sto t |}).
Proof.
  intros Hnet Hok Hjson Htok Huser.
  unfold Auth.signIn, Auth.setAuthToken. run.
  rewrite Hnet. simpl. rewrite Hok. simpl. rewrite Hjson. simpl.
  rewrite Htok, Huser. simpl.
  destruct sto as [m |]; simpl; by rewrite <- ?app_assoc.
Qed.

Lemma signIn_round_trip_witness :
  let user := JObj [("id", JNum 1); ("email", JStr "x")] in
  let fields := [("access_token", JStr "a.b.c"); ("user", user)] in
  let r := {| resp_status := 200; json := Some (JObj fields) |} in
  let request :=
    Auth.auth_request Sample.platform "http://127.0.0.1:8000"
      "/api/v1/auth/signin" "x" "pw" in
  Auth.signIn Sample.platform (Sample.always (Responds r))
    "http://127.0.0.1:8000" "x" "pw" (start (Some ∅))
  = (Return {| Auth.result_user := user; Auth.token := JStr "a.b.c" |},
     {| storage := Some {[ "auth_token" := "a.b.c" ]};
        trace := [EFetch request; ESetItem "auth_token" "a.b.c"] |}).
Proof.
  intros user fields r request.
  apply (signIn_round_trip Sample.platform (Sample.always (Responds r))
           "http://127.0.0.1:8000" "x" "pw" (Some ∅) [] r fields "a.b.c" user).
  - reflexivity.
  - reflexivity.
  - reflexivity.
  - reflexivity.
  - reflexivity.
Defined.

(** ** Refreshing the token *)

Section RefreshToken.

Variable P : Platform.
Variable net : FetchRequest -> NetBehaviour.
Variable base : string.

Let refreshToken := Auth.refreshToken P net base.
Let refresh_request := Auth.refresh_request base.

Lemma refreshToken_no_token (s : St) :
  no_token (stored_token "auth_token" (storage s)) = true ->
  refreshToken s = (Return JNull, s).
Proof.
  intros Hno. unfold refreshToken, Auth.refreshToken, Auth.getAuthToken. run.
  destruct s as [[m |] tr]; simpl in *; [| done].
  destruct (m !! "auth_token") as [tok |]; simpl in *; [| done].
  by rewrite Hno.
Qed.

(** With a token, the first thing [refreshToken] does is the [fetch]. *)
Lemma refreshToken_with_token (m : gmap string string) (tr : list Effect) (tok : string) :
  m !! "auth_token" = Some tok ->
  tok <> "" ->
  refreshToken {| storage := Some m; trace := tr |}
  = let s1 := {| storage := Some m; trace := tr ++ [EFetch (refresh_request tok)] |} in
    let cleared (log : list Effect) :=
      {| storage := Some (base.delete "auth_token" m);
         trace := (trace s1 ++ log) ++ [ERemoveItem "auth_token"] |} in
    let failed := EConsoleError "Error refreshing token:" in
    match net (refresh_request tok) with
    | Stalls => (Hang, s1)
    | Fails e => (Return JNull, cleared [failed])
    | Responds r =>
        if ok r then
          match new_token r with
          | Some v =>
              (Return v,
               {| storage := Some (<["auth_token" := ToString P v]> m);
                  trace := trace s1 ++ [ESetItem "auth_token" (ToString P v)] |})
          | None => (Return JNull, cleared [failed])
          end
        else (Return JNull, cleared [])
    end.
Proof.
  intros Hm Hne.
  unfold refreshToken, refresh_request, Auth.refreshToken, Auth.getAuthToken,
    Auth.removeAuthToken, Auth.setAuthToken, new_token. run.
  rewrite Hm. simpl.
  destruct (String.eqb_spec tok ""); [done |]. simpl.
  destruct (net (Auth.refresh_request base tok)) as [r | e |]; simpl; [| done | done].
  destruct (ok r); simpl.
  - destruct (json r) as [data |]; simpl; [| done].
    destruct (get_prop data "access_token"); simpl; done.
  - by rewrite app_nil_r.
Qed.

End RefreshToken.

(** C6: [refreshToken] never throws.  Without a stored token it resolves to
    [null] and touches nothing, so no request is issued.  With one, a
    non-2xx response, a rejected [fetch], an unreadable body or a body
    without properties all end in the token removed and [null] returned;
    a 2xx response with a readable body ends in its [access_token] stored
    and returned; and a request that never settles leaves the storage
    alone. *)
Theorem refreshToken_contract (P : Platform) (net : FetchRequest -> NetBehaviour)
    (base : string) (sto : option (gmap string string)) (tr : list Effect) :
  let s := {| storage := sto; trace := tr |} in
  let out := Auth.refreshToken P net base s in
  let cleared := base.delete "auth_token" <$> sto in
  (forall t, out.1 <> Throw t)
  /\ (no_token (stored_token "auth_token" sto) = true -> out = (Return JNull, s))
  /\ (forall tok, stored_token "auth_token" sto = Some tok -> tok <> "" ->
      let req := Auth.refresh_request base tok in
      fetched (trace out.2) = (fetched tr ++ [req])%list
      /\ (forall r, net req = Responds r -> ok r = false ->
          out.1 = Return JNull /\ storage out.2 = cleared)
      /\ (forall e, net req = Fails e ->
          out.1 = Return JNull /\ storage out.2 = cleared)
      /\ (forall r, net req = Responds r -> ok r = true -> new_token r = None ->
          out.1 = Return JNull /\ storage out.2 = cleared)
      /\ (forall r v, net req = Responds r -> ok r = true -> new_token r = Some v ->
          out.1 = Return v
          /\ storage out.2 = <["auth_token" := ToString P v]> <$> sto)
      /\ (net req = Stalls -> out.1 = Hang /\ storage out.2 = sto)).
Proof.
  intros s out cleared.
  assert (Hcases : no_token (stored_token "auth_token" sto) = true
                   \/ exists m tok, sto = Some m /\ m !! "auth_token" = Some tok
                                    /\ tok <> "").
  { destruct sto as [m |]; simpl; [| by left].
    destruct (m !! "auth_token") as [tok |] eqn:Hm; simpl; [| by left].
    destruct (String.eqb_spec tok ""); [by left |]. right. by exists m, tok. }
  split; [| split].
  - intros t. subst out s.
    destruct Hcases as [Hno | (m & tok & -> & Hm & Hne)].
    + by rewrite refreshToken_no_token.
    + rewrite (refreshToken_with_token P net base m tr tok Hm Hne). simpl.
      destruct (net _) as [r | e |]; simpl; [| done | done].
      destruct (ok r); [| done]. by destruct (new_token r).
  - intros Hno. by apply refreshToken_no_token.
  - intros tok Htok Hne req. subst out s cleared.
    destruct sto as [m |]; simpl in Htok; [| done].
    rewrite (refreshToken_with_token P net base m tr tok Htok Hne). simpl.
    fold req. split.
    { destruct (net req) as [r | e |]; simpl.
      - destruct (ok r); [destruct (new_token r) |]; simpl;
          rewrite ?fetched_app; simpl; by rewrite ?app_nil_r.
      - rewrite ?fetched_app. simpl. by rewrite ?app_nil_r.
      - by rewrite fetched_app. }
    repeat split; intros; simplify_eq;
      repeat match goal with
             | H : net req = _ |- _ => rewrite H; clear H
             | H : ok _ = _ |- _ => rewrite H; clear H
             | H : new_token _ = _ |- _ => rewrite H; clear H
             end; done.
Qed.

Lemma refreshToken_contract_witness :
  let rejected := Responds {| resp_status := 401; json := None |} in
  let renewed :=
    Responds {| resp_status := 200;
                json := Some (JObj [("access_token", JStr "n.e.w")]) |} in
  Auth.refreshToken Sample.platform (Sample.always Stalls) "http://b" (start (Some ∅))
  = (Return JNull, start (Some ∅))
  /\ (let out := Auth.refreshToken Sample.platform (Sample.always rejected)
                   "http://b" (Sample.stored "o.l.d") in
      out.1 = Return JNull
      /\ storage out.2 = Some (base.delete "auth_token" {[ "auth_token" := "o.l.d" ]}))
  /\ (let out := Auth.refreshToken Sample.platform (Sample.always renewed)
                   "http://b" (Sample.stored "o.l.d") in
      out.1 = Return (JStr "n.e.w")
      /\ storage out.2
         = Some (<["auth_token" := "n.e.w"]> {[ "auth_token" := "o.l.d" ]})).
Proof.
  intros rejected renewed. split; [| split].
  - apply (refreshToken_contract Sample.platform (Sample.always Stalls) "http://b"
             (Some ∅) []).
    reflexivity.
  - destruct (refreshToken_contract Sample.platform (Sample.always rejected) "http://b"
                (Some {[ "auth_token" := "o.l.d" ]}) []) as (_ & _ & Hwith).
    destruct (Hwith "o.l.d") as (_ & Hrejected & _).
    + reflexivity.
    + discriminate.
    + apply (Hrejected {| resp_status := 401; json := None |}); reflexivity.
  - destruct (refreshToken_contract Sample.platform (Sample.always renewed) "http://b"
                (Some {[ "auth_token" := "o.l.d" ]}) []) as (_ & _ & Hwith).
    destruct (Hwith "o.l.d") as (_ & _ & _ & _ & Hrenewed & _).
    + reflexivity.
    + discriminate.
    + apply (Hrenewed {| resp_status := 200;
                         json := Some (JObj [("access_token", JStr "n.e.w")]) |}
               (JStr "n.e.w")); reflexivity.
Defined.

(** ** The request pipeline *)

Lemma removals_app tr1 tr2 : removals (tr1 ++ tr2) = (removals tr1 ++ removals tr2)%list.
Proof.
  induction tr1 as [| e tr1 IH]; [done |].
  destruct e; simpl; by rewrite ?IH.
Qed.

Lemma redirects_app tr1 tr2 : redirects (tr1 ++ tr2) = (redirects tr1 ++ redirects tr2)%list.
Proof.
  induction tr1 as [| e tr1 IH]; [done |].
  destruct e; simpl; by rewrite ?IH.
Qed.

Lemma arms_effective_timeout config options :
  ApiClient.arms config options = true ->
  ApiClient.effective_timeout config options = Some (ApiClient.timeout config).
Proof.
  unfold ApiClient.arms, ApiClient.effective_timeout.
  by destruct (ApiClient.init_signal options).
Qed.

Section Request.

Variable P : Platform.
Variable net : FetchRequest -> NetBehaviour.
Variable config : ApiClient.ApiClientConfig.

Let request := ApiClient.request P net config.
Let send := ApiClient.send P net config.
Let fetch_args := ApiClient.fetch_args config.

Lemma request_no_token (endpoint : string) (options : ApiClient.RequestInit) (s : St) :
  no_token (stored_token (ApiClient.tokenKey config) (storage s)) = true ->
  request endpoint options s
  = (Throw (ThrowApi (new_ApiError P "No authentication token found" 401
                        (Some (JStr "AUTH_001")) None (Some false))), s).
Proof.
  intros Hno. unfold request, ApiClient.request. run.
  destruct s as [[m |] tr]; simpl in *; [| done].
  destruct (m !! ApiClient.tokenKey config) as [tok |]; simpl in *; [| done].
  by rewrite Hno.
Qed.

(** With a token, [request] arms its timer and enters the [try]. *)
Lemma request_with_token (endpoint : string) (options : ApiClient.RequestInit)
    (m : gmap string string) (tr : list Effect) (tok : string) :
  m !! ApiClient.tokenKey config = Some tok ->
  tok <> "" ->
  request endpoint options {| storage := Some m; trace := tr |}
  = send (ApiClient.arms config options) (fetch_args endpoint options tok)
      {| storage := Some m; trace := tr ++ arm_log config options |}.
Proof.
  intros Hm Hne. unfold request, send, fetch_args, ApiClient.request, arm_log.
  unfold bind at 1 2, has_window, localStorage_getItem. simpl.
  rewrite Hm. simpl.
  destruct (String.eqb_spec tok ""); [done |]. simpl.
  unfold bind, emit, ret.
  destruct (ApiClient.arms config options) eqn:Harm; simpl.
  - by rewrite (arms_effective_timeout _ _ Harm).
  - by rewrite app_nil_r.
Qed.

Lemma on_error_housekeeping (armed : bool) (error : Thrown) :
  emits_only housekeeping (ApiClient.on_error P armed error).
Proof.
  unfold ApiClient.on_error.
  apply emits_bind; [destruct armed; auto with effects; by apply emits_emit |].
  intros _. destruct error as [e | e]; [apply emits_throw |].
  apply emits_if; apply emits_throw.
Qed.

Lemma status_message_housekeeping (st : Z) (errorData : JSValue) :
  emits_only housekeeping (ApiClient.status_message P st errorData).
Proof.
  unfold ApiClient.status_message.
  repeat (apply emits_if; [apply emits_ret |]).
  apply emits_bind; [apply emits_prop |]. intros m. apply emits_ret.
Qed.

Lemma on_response_housekeeping (armed : bool) (r : Response) :
  emits_only housekeeping (ApiClient.on_response P config armed r).
Proof.
  unfold ApiClient.on_response, ApiClient.or_else, response_json_or_empty, response_json.
  apply emits_bind; [destruct armed; auto with effects; by apply emits_emit |].
  intros _. repeat apply emits_if.
  - apply emits_bind; [apply emits_has_window |]. intros w.
    apply emits_bind; [| intros _; apply emits_throw].
    apply emits_if; [by apply emits_removeItem | apply emits_ret].
  - apply emits_bind; [apply emits_ret |]. intros errorData.
    apply emits_bind; [apply emits_prop |]. intros error_code.
    apply emits_bind.
    { apply emits_if; [apply emits_ret |].
      apply emits_bind; [apply emits_prop |]. intros c. apply emits_ret. }
    intros errorCode.
    apply emits_bind; [apply status_message_housekeeping |].
    intros message. apply emits_throw.
  - apply emits_ret.
  - apply emits_or_throw.
Qed.

(** Once under way, [request] logs its one [fetch] and then only disarms
    the timer or drops the token. *)
Lemma send_log (armed : bool) (req : FetchRequest) (s : St) :
  exists extra,
    trace (send armed req s).2 = (trace s ++ EFetch req :: extra)%list
    /\ Forall housekeeping extra.
Proof.
  unfold send, ApiClient.send.
  unfold try_catch, bind, fetch, emit. simpl.
  remember {| storage := storage s; trace := trace s ++ [EFetch req] |} as s1 eqn:Hs1.
  assert (Hstep : forall (k : M JSValue), emits_only housekeeping k ->
            exists extra, trace (k s1).2 = (trace s ++ EFetch req :: extra)%list
                          /\ Forall housekeeping extra).
  { intros k Hk. destruct (Hk s1) as (extra & Htr & HQ).
    exists extra. split; [| done]. rewrite Htr, Hs1. simpl. by rewrite <- app_assoc. }
  destruct (net req) as [r | e |]; simpl; rewrite <- ?Hs1.
  - pose proof (on_response_housekeeping armed r) as Hr.
    destruct (Hstep _ Hr) as (e1 & He1 & HQ1).
    destruct (ApiClient.on_response P config armed r s1) as [[v | t |] s2] eqn:Hrun;
      simpl in *; [by exists e1 | | by exists e1].
    destruct (on_error_housekeeping armed t s2) as (e2 & He2 & HQ2).
    exists (e1 ++ e2)%list. rewrite He2, He1.
    split; [by rewrite <- app_assoc | by apply Forall_app].
  - apply (Hstep (ApiClient.on_error P armed (ThrowJs e))), on_error_housekeeping.
  - destruct (signal req); simpl; rewrite <- ?Hs1.
    + apply (Hstep (ApiClient.on_error P armed (ThrowJs abort_error))),
        on_error_housekeeping.
    + exists []. by subst s1.
Qed.

End Request.

(** *** Timeouts and network failures *)

(** A rejected [fetch] becomes an [ApiError] with status 0, no error code
    and [canRetry] set; its message is [Request timeout] exactly when the
    rejection is a [TypeError] named [AbortError]. *)
Lemma request_network_failure (P : Platform) (net : FetchRequest -> NetBehaviour)
    (config : ApiClient.ApiClientConfig) (endpoint : string)
    (options : ApiClient.RequestInit) (m : gmap string string) (tr : list Effect)
    (tok : string) (e : JSError) :
  m !! ApiClient.tokenKey config = Some tok ->
  tok <> "" ->
  net (ApiClient.fetch_args config endpoint options tok) = Fails e ->
  (ApiClient.request P net config endpoint options {| storage := Some m; trace := tr |}).1
  = Throw (ThrowApi (new_ApiError P
                       (if looks_like_timeout e then "Request timeout"
                        else "Network error. Check your connection.")
                       0 (Some JNull) None (Some true))).
Proof.
  intros Hm Hne Hnet.
  rewrite (request_with_token P net config endpoint options m tr tok Hm Hne).
  unfold ApiClient.send, ApiClient.on_error, looks_like_timeout. run. rewrite Hnet. simpl.
  destruct (ApiClient.arms config options); simpl;
    by destruct (bool_decide (err_class e = TypeErrorC) && String.eqb (err_name e) "AbortError").
Qed.

(** C1, at the input where the code departs from it: when the backend
    does not answer and the request's own timer fires, the [fetch] call
    rejects with the abort reason, a [DOMException]; the [catch] block
    tests for a [TypeError], so the error thrown carries the message of a
    network failure, not [Request timeout].  Status 0, the null error code
    and [canRetry] are as claimed, and the timer is cleared. *)
Theorem request_timeout_reported_as_network_error (P : Platform)
    (net : FetchRequest -> NetBehaviour) (config : ApiClient.ApiClientConfig)
    (endpoint : string) (options : ApiClient.RequestInit)
    (m : gmap string string) (tr : list Effect) (tok : string) :
  m !! ApiClient.tokenKey config = Some tok ->
  tok <> "" ->
  ApiClient.arms config options = true ->
  net (ApiClient.fetch_args config endpoint options tok) = Stalls ->
  ApiClient.request P net config endpoint options {| storage := Some m; trace := tr |}
  = (Throw (network_error P),
     {| storage := Some m;
        trace := tr ++ [ESetTimeout (ApiClient.timeout config);
                        EFetch (ApiClient.fetch_args config endpoint options tok);
                        EClearTimeout] |}).
Proof.
  intros Hm Hne Harm Hnet.
  rewrite (request_with_token P net config endpoint options m tr tok Hm Hne).
  unfold ApiClient.send, ApiClient.on_error, arm_log, network_error. run.
  rewrite Hnet, Harm. simpl.
  by rewrite <- !app_assoc.
Qed.

Lemma request_timeout_reported_as_network_error_witness :
  let options := {| ApiClient.init_method := Some "GET";
                    ApiClient.init_headers := None;
                    ApiClient.init_body := None;
                    ApiClient.init_signal := false |} in
  let config := ApiClient.apiClient None in
  ApiClient.get Sample.platform (Sample.always Stalls) config "/api/v1/tasks" None
    (Sample.stored "a.b.c")
  = (Throw (network_error Sample.platform),
     {| storage := Some {[ "auth_token" := "a.b.c" ]};
        trace := [ESetTimeout 10000;
                  EFetch (ApiClient.fetch_args config "/api/v1/tasks" options "a.b.c");
                  EClearTimeout] |}).
Proof.
  intros options config.
  apply (request_timeout_reported_as_network_error Sample.platform
           (Sample.always Stalls) config "/api/v1/tasks" options
           {[ "auth_token" := "a.b.c" ]} [] "a.b.c").
  - reflexivity.
  - discriminate.
  - reflexivity.
  - reflexivity.
Defined.

(** *** Unauthorized responses *)

(** C3: a 401 response removes the token from the storage, once, and the
    call fails with an [ApiError] of status 401, code [AUTH_001] and
    [canRetry] false; the log holds no navigation. *)
Theorem request_unauthorized (P : Platform) (net : FetchRequest -> NetBehaviour)
    (config : ApiClient.ApiClientConfig) (endpoint : string)
    (options : ApiClient.RequestInit) (m : gmap string string) (tr : list Effect)
    (tok : string) (r : Response) :
  m !! ApiClient.tokenKey config = Some tok ->
  tok <> "" ->
  net (ApiClient.fetch_args config endpoint options tok) = Responds r ->
  resp_status r = 401 ->
  let out := ApiClient.request P net config endpoint options
               {| storage := Some m; trace := tr |} in
  (exists e, out.1 = Throw (ThrowApi e)
             /\ status e = 401 /\ errorCode e = JStr "AUTH_001" /\ canRetry e = false)
  /\ storage out.2 = Some (base.delete (ApiClient.tokenKey config) m)
  /\ removals (trace out.2) = (removals tr ++ [ApiClient.tokenKey config])%list
  /\ redirects (trace out.2) = redirects tr.
Proof.
  intros Hm Hne Hnet Hst out. subst out.
  rewrite (request_with_token P net config endpoint options m tr tok Hm Hne).
  unfold ApiClient.send, ApiClient.on_response, ApiClient.on_error, arm_log. run.
  rewrite Hnet. simpl. rewrite Hst. simpl.
  destruct (ApiClient.arms config options); simpl;
    (split; [eexists; split; [reflexivity | done] |]);
    (split; [done |]);
    rewrite ?removals_app, ?redirects_app; simpl; by rewrite ?app_nil_r.
Qed.

Lemma request_unauthorized_witness :
  let r := {| resp_status := 401; json := None |} in
  let out := ApiClient.get Sample.platform (Sample.always (Responds r))
               (ApiClient.apiClient None) "/api/v1/tasks" None (Sample.stored "a.b.c") in
  (exists e, out.1 = Throw (ThrowApi e)
             /\ status e = 401 /\ errorCode e = JStr "AUTH_001" /\ canRetry e = false)
  /\ storage out.2 = Some (base.delete "auth_token" {[ "auth_token" := "a.b.c" ]})
  /\ removals (trace out.2) = ["auth_token"]
  /\ redirects (trace out.2) = [].
Proof.
  intros r out.
  apply (request_unauthorized Sample.platform (Sample.always (Responds r))
           (ApiClient.apiClient None) "/api/v1/tasks"
           {| ApiClient.init_method := Some "GET"; ApiClient.init_headers := None;
              ApiClient.init_body := None; ApiClient.init_signal := false |}
           {[ "auth_token" := "a.b.c" ]} [] "a.b.c" r).
  - reflexivity.
  - discriminate.
  - reflexivity.
  - reflexivity.
Defined.

(** *** Error responses *)

(** A non-2xx, non-401 response whose body is anything but the JSON value
    [null] fails with the response's status, and [canRetry] tells whether
    that status is 0 or at least 500; 500 and 404 get their fixed messages. *)
Lemma request_http_error (P : Platform) (net : FetchRequest -> NetBehaviour)
    (config : ApiClient.ApiClientConfig) (endpoint : string)
    (options : ApiClient.RequestInit) (m : gmap string string) (tr : list Effect)
    (tok : string) (r : Response) :
  m !! ApiClient.tokenKey config = Some tok ->
  tok <> "" ->
  net (ApiClient.fetch_args config endpoint options tok) = Responds r ->
  resp_status r <> 401 ->
  ok r = false ->
  (exists x, get_prop (error_data r) "message" = Some x) ->
  exists e,
    thrown_api (ApiClient.request P net config endpoint options
                  {| storage := Some m; trace := tr |}).1 = Some e
    /\ status e = resp_status r
    /\ canRetry e = (500 <=? resp_status r) || (resp_status r =? 0)
    /\ (resp_status r = 500 -> message e = "Something went wrong. Please try again.")
    /\ (resp_status r = 404 -> message e = "The requested item was not found").
Proof.
  intros Hm Hne Hnet H401 Hok [x Hx].
  rewrite (request_with_token P net config endpoint options m tr tok Hm Hne).
  unfold ApiClient.send, ApiClient.on_response, ApiClient.on_error,
    ApiClient.or_else, ApiClient.status_message. run.
  rewrite Hnet. simpl.
  destruct (Z.eqb_spec (resp_status r) 401) as [| _]; [done |].
  rewrite Hok. simpl. fold (error_data r).
  assert (Hprops : forall k, exists y, get_prop (error_data r) k = Some y).
  { intros k. destruct (error_data r); simpl in *; try done; eauto. }
  destruct (Hprops "error_code") as [c1 Hc1].
  destruct (Hprops "errorCode") as [c2 Hc2].
  destruct (ApiClient.arms config options); simpl;
    rewrite Hc1; simpl; destruct (truthy c1); simpl; rewrite ?Hc2; simpl;
    repeat (match goal with
            | |- context [resp_status r =? ?n] =>
                destruct (Z.eqb_spec (resp_status r) n) as [Heq | ?];
                [try rewrite Heq in *|]
            end; simpl);
    rewrite ?Hx; simpl; eexists; (split; [reflexivity |]); simpl;
    repeat split; try done; try lia.
Qed.

(** C7, at the input where the code departs from it: an error response
    whose body is the JSON value [null] makes the read of
    [errorData.error_code] throw inside the [try], and the [catch] block
    turns that into the network error: status 0 and [canRetry] true,
    whatever the response's status was. *)
Theorem request_null_error_body_reported_as_network_error (P : Platform)
    (net : FetchRequest -> NetBehaviour) (config : ApiClient.ApiClientConfig)
    (endpoint : string) (options : ApiClient.RequestInit)
    (m : gmap string string) (tr : list Effect) (tok : string) (r : Response) :
  m !! ApiClient.tokenKey config = Some tok ->
  tok <> "" ->
  net (ApiClient.fetch_args config endpoint options tok) = Responds r ->
  resp_status r <> 401 ->
  ok r = false ->
  json r = Some JNull ->
  (ApiClient.request P net config endpoint options {| storage := Some m; trace := tr |}).1
  = Throw (network_error P).
Proof.
  intros Hm Hne Hnet H401 Hok Hjson.
  rewrite (request_with_token P net config endpoint options m tr tok Hm Hne).
  unfold ApiClient.send, ApiClient.on_response, ApiClient.on_error, network_error. run.
  rewrite Hnet. simpl.
  destruct (Z.eqb_spec (resp_status r) 401) as [| _]; [done |].
  rewrite Hok, Hjson. simpl.
  by destruct (ApiClient.arms config options).
Qed.

Lemma request_null_error_body_reported_as_network_error_witness :
  let r := {| resp_status := 404; json := Some JNull |} in
  let out := ApiClient.get Sample.platform (Sample.always (Responds r))
               (ApiClient.apiClient None) "/api/v1/tasks/7" None (Sample.stored "a.b.c") in
  out.1 = Throw (network_error Sample.platform)
  /\ (canRetry <$> thrown_api out.1) = Some true
  /\ (500 <=? resp_status r) || (resp_status r =? 0) = false.
Proof.
  intros r out.
  assert (Hout : out.1 = Throw (network_error Sample.platform)).
  { apply (request_null_error_body_reported_as_network_error Sample.platform
             (Sample.always (Responds r)) (ApiClient.apiClient None) "/api/v1/tasks/7"
             {| ApiClient.init_method := Some "GET"; ApiClient.init_headers := None;
                ApiClient.init_body := None; ApiClient.init_signal := false |}
             {[ "auth_token" := "a.b.c" ]} [] "a.b.c" r).
    - reflexivity.
    - discriminate.
    - reflexivity.
    - discriminate.
    - reflexivity.
    - reflexivity. }
  split; [exact Hout |]. rewrite Hout. split; reflexivity.
Defined.

(** *** Headers *)

(** The headers of the one request a call with a stored token sends. *)
Lemma request_fetches_once (P : Platform) (net : FetchRequest -> NetBehaviour)
    (config : ApiClient.ApiClientConfig) (endpoint : string)
    (options : ApiClient.RequestInit) (m : gmap string string) (tr : list Effect)
    (tok : string) :
  m !! ApiClient.tokenKey config = Some tok ->
  tok <> "" ->
  let out := ApiClient.request P net config endpoint options
               {| storage := Some m; trace := tr |} in
  fetched (trace out.2)
  = (fetched tr ++ [ApiClient.fetch_args config endpoint options tok])%list
  /\ timers (trace out.2) = (timers tr ++ timers (arm_log config options))%list.
Proof.
  intros Hm Hne out. subst out.
  rewrite (request_with_token P net config endpoint options m tr tok Hm Hne).
  destruct (send_log P net config (ApiClient.arms config options)
              (ApiClient.fetch_args config endpoint options tok)
              {| storage := Some m; trace := tr ++ arm_log config options |})
    as (extra & -> & Hextra).
  destruct (housekeeping_quiet extra Hextra) as (Hf & Ht & _).
  simpl. rewrite !fetched_app, !timers_app. simpl. rewrite Hf, Ht.
  split.
  - unfold arm_log. destruct (ApiClient.arms config options); simpl;
      by rewrite ?app_nil_r.
  - by rewrite app_nil_r.
Qed.

(** C2, as amended: a call with a stored token sends exactly one request,
    and each of its headers is the caller's when the caller supplies that
    key and the default otherwise.  So [Authorization] is the caller's
    value when there is one, and [Bearer <stored token>] only when the
    caller passes none. *)
Theorem request_caller_headers_override (P : Platform)
    (net : FetchRequest -> NetBehaviour) (config : ApiClient.ApiClientConfig)
    (endpoint : string) (options : ApiClient.RequestInit)
    (m : gmap string string) (tr : list Effect) (tok : string) :
  m !! ApiClient.tokenKey config = Some tok ->
  tok <> "" ->
  let out := ApiClient.request P net config endpoint options
               {| storage := Some m; trace := tr |} in
  let caller (k : string) := ApiClient.init_headers options ≫= (fun h => h !! k) in
  exists req,
    fetched (trace out.2) = (fetched tr ++ [req])%list
    /\ (forall k, headers req !! k
                  = match caller k with
                    | Some v => Some v
                    | None => ApiClient.default_headers tok !! k
                    end)
    /\ headers req !! "Authorization"
       = Some (default ("Bearer " +:+ tok) (caller "Authorization")).
Proof.
  intros Hm Hne out caller.
  exists (ApiClient.fetch_args config endpoint options tok).
  split; [apply (request_fetches_once P net config endpoint options m tr tok Hm Hne) |].
  assert (Hall : forall k,
            headers (ApiClient.fetch_args config endpoint options tok) !! k
            = match caller k with
              | Some v => Some v
              | None => ApiClient.default_headers tok !! k
              end).
  { intros k. subst caller. simpl. unfold ApiClient.spread.
    rewrite lookup_union.
    destruct (ApiClient.init_headers options) as [h |]; simpl.
    - by destruct (h !! k), (ApiClient.default_headers tok !! k).
    - rewrite lookup_empty. by destruct (ApiClient.default_headers tok !! k). }
  split; [exact Hall |].
  rewrite Hall. destruct (caller "Authorization"); [done |].
  unfold ApiClient.default_headers. by simplify_map_eq.
Qed.

Lemma request_caller_headers_override_witness :
  let mine : gmap string string := {[ "Authorization" := "Basic dXNlcjpwdw==" ]} in
  let options := {| ApiClient.init_method := Some "GET";
                    ApiClient.init_headers := Some mine;
                    ApiClient.init_body := None;
                    ApiClient.init_signal := false |} in
  let out := ApiClient.request Sample.platform (Sample.always Stalls)
               (ApiClient.apiClient None) "/api/v1/tasks" options
               (Sample.stored "a.b.c") in
  exists req,
    fetched (trace out.2) = [req]
    /\ headers req !! "Authorization" = Some "Basic dXNlcjpwdw=="
    /\ headers req !! "Content-Type" = Some "application/json".
Proof.
  intros mine options out.
  destruct (request_caller_headers_override Sample.platform (Sample.always Stalls)
              (ApiClient.apiClient None) "/api/v1/tasks" options
              {[ "auth_token" := "a.b.c" ]} [] "a.b.c")
    as (req & Hone & Hall & Hauth).
  - reflexivity.
  - discriminate.
  - exists req. split; [exact Hone |]. split.
    + exact Hauth.
    + rewrite Hall. reflexivity.
Defined.

(** C2 as stated fails: through the public [get], a caller that passes its
    own [Authorization] header has that header sent, not the stored token. *)
Lemma authorization_always_bearer_fails : ~ authorization_always_bearer.
Proof.
  intros Hclaim.
  pose (mine := ({[ "Authorization" := "Basic dXNlcjpwdw==" ]} : gmap string string)).
  pose (opts := Some {| ApiClient.opt_headers := Some mine;
                        ApiClient.opt_timeout := None |}).
  pose (options := {| ApiClient.init_method := Some "GET";
                      ApiClient.init_headers := opts ≫= ApiClient.opt_headers;
                      ApiClient.init_body := None;
                      ApiClient.init_signal := false |}).
  specialize (Hclaim Sample.platform (Sample.always Stalls) (ApiClient.apiClient None)
                "/api/v1/tasks" options {[ "auth_token" := "a.b.c" ]} "a.b.c"
                (ApiClient.fetch_args (ApiClient.apiClient None) "/api/v1/tasks"
                   options "a.b.c")).
  assert (Hsent : headers (ApiClient.fetch_args (ApiClient.apiClient None)
                             "/api/v1/tasks" options "a.b.c") !! "Authorization"
                  = Some "Basic dXNlcjpwdw==") by reflexivity.
  rewrite Hsent in Hclaim.
  assert (Hfalse : Some "Basic dXNlcjpwdw==" = Some ("Bearer " +:+ "a.b.c")).
  { apply Hclaim; [reflexivity | discriminate |].
    change (ApiClient.request Sample.platform (Sample.always Stalls)
              (ApiClient.apiClient None) "/api/v1/tasks" options)
      with (ApiClient.get Sample.platform (Sample.always Stalls)
              (ApiClient.apiClient None) "/api/v1/tasks" opts).
    destruct (request_fetches_once Sample.platform (Sample.always Stalls)
                (ApiClient.apiClient None) "/api/v1/tasks" options
                {[ "auth_token" := "a.b.c" ]} [] "a.b.c") as [Hone _];
      [reflexivity | discriminate |].
    unfold start, ApiClient.get. fold options. rewrite Hone. by left. }
  discriminate Hfalse.
Qed.

(** *** The per-call timeout *)

(** The timers a call arms: none without a token, otherwise the one of the
    configuration unless it is disabled. *)
Lemma request_timers (P : Platform) (net : FetchRequest -> NetBehaviour)
    (config : ApiClient.ApiClientConfig) (endpoint : string)
    (options : ApiClient.RequestInit) (sto : option (gmap string string))
    (tr : list Effect) :
  timers (trace (ApiClient.request P net config endpoint options
                   {| storage := sto; trace := tr |}).2)
  = (timers tr ++ if no_token (stored_token (ApiClient.tokenKey config) sto)
                  then [] else timers (arm_log config options))%list.
Proof.
  destruct (no_token (stored_token (ApiClient.tokenKey config) sto)) eqn:Hno.
  - rewrite request_no_token by done. simpl. by rewrite app_nil_r.
  - destruct sto as [m |]; simpl in Hno; [| done].
    destruct (m !! ApiClient.tokenKey config) as [tok |] eqn:Hm; simpl in Hno; [| done].
    apply (request_fetches_once P net config endpoint options m tr tok Hm).
    intros ->. done.
Qed.

(** C10: on each of the five verbs, passing [timeout] in the options gives
    the very same computation as leaving it out, and the calls arm no timer
    without a stored token and exactly one, of 10000 ms, with one. *)
Theorem per_call_timeout_ignored (P : Platform) (net : FetchRequest -> NetBehaviour)
    (env : option string) (endpoint : string) (data : JSValue)
    (h : option (gmap string string)) (t : Z) (sto : option (gmap string string)) :
  let client := ApiClient.apiClient env in
  let timed := Some {| ApiClient.opt_headers := h; ApiClient.opt_timeout := Some t |} in
  let plain := Some {| ApiClient.opt_headers := h; ApiClient.opt_timeout := None |} in
  let armed (call : M JSValue) := timers (trace (call (start sto)).2) in
  let expected := if no_token (stored_token "auth_token" sto) then [] else [10000] in
  (ApiClient.get P net client endpoint timed = ApiClient.get P net client endpoint plain
   /\ armed (ApiClient.get P net client endpoint timed) = expected)
  /\ (ApiClient.post P net client endpoint data timed
      = ApiClient.post P net client endpoint data plain
      /\ armed (ApiClient.post P net client endpoint data timed) = expected)
  /\ (ApiClient.put P net client endpoint data timed
      = ApiClient.put P net client endpoint data plain
      /\ armed (ApiClient.put P net client endpoint data timed) = expected)
  /\ (ApiClient.patch P net client endpoint data timed
      = ApiClient.patch P net client endpoint data plain
      /\ armed (ApiClient.patch P net client endpoint data timed) = expected)
  /\ (ApiClient.delete P net client endpoint timed
      = ApiClient.delete P net client endpoint plain
      /\ armed (ApiClient.delete P net client endpoint timed) = expected).
Proof.
  intros client timed plain armed expected.
  assert (Hreq : forall options,
            ApiClient.init_signal options = false ->
            armed (ApiClient.request P net client endpoint options) = expected).
  { intros options Hsig. subst armed expected. unfold start.
    rewrite request_timers. simpl.
    destruct (no_token (stored_token "auth_token" sto)); [done |].
    unfold arm_log, ApiClient.arms, ApiClient.effective_timeout. by rewrite Hsig. }
  repeat split; try (apply Hreq; reflexivity).
  generalize (Hreq {| ApiClient.init_method := Some "DELETE";
                      ApiClient.init_headers := h;
                      ApiClient.init_body := None;
                      ApiClient.init_signal := false |} eq_refl).
  clear Hreq. subst armed. simpl. unfold ApiClient.delete, bind. simpl.
  by destruct (ApiClient.request P net client endpoint _ (start sto)) as [[v | e |] s'].
Qed.

(** ** The task list query *)

Lemma urlencode_digit (k : N) :
  TaskApi.urlencode_byte (pretty_N_char k) = String (pretty_N_char k) EmptyString.
Proof. unfold pretty_N_char. by repeat case_match. Qed.

Lemma urlencode_pretty_N_go (x : N) (s : string) :
  TaskApi.urlencode s = s -> TaskApi.urlencode (pretty_N_go x s) = pretty_N_go x s.
Proof.
  revert s. induction (N.lt_wf_0 x) as [x _ IH]. intros s Hs.
  destruct (decide (x = 0)%N) as [-> | Hpos].
  - by rewrite pretty_N_go_0.
  - rewrite pretty_N_go_step by lia.
    apply IH; [apply N.div_lt; lia |].
    simpl. by rewrite urlencode_digit, Hs.
Qed.

Lemma urlencode_pretty_Z (n : Z) : TaskApi.urlencode (pretty n) = pretty n.
Proof.
  assert (Hpos : forall p : positive,
            TaskApi.urlencode (pretty (Npos p)) = pretty (Npos p)).
  { intros p. unfold pretty, pretty_N.
    destruct (decide (N.pos p = 0)%N); [done |].
    by apply urlencode_pretty_N_go. }
  destruct n as [| p | p]; [done | apply Hpos |].
  unfold pretty, pretty_Z, pretty, pretty_positive.
  change (TaskApi.urlencode ("-" +:+ pretty (Npos p)))
    with ("-" +:+ TaskApi.urlencode (pretty (Npos p))).
  by rewrite Hpos.
Qed.

(** C8: [getTasks] calls [apiClient.get] on an endpoint whose query holds
    exactly the parameters that are not [undefined], in the order
    [is_completed], [limit], [offset], each as [name=value] with the value
    printed by [String] and escaped by the serializer, joined by [&]; there
    is no [?] when none is defined.  When the numbers are safe integers the
    values are their decimal digits and nothing is escaped.  So a limit of
    10 and an offset of 0 give [/api/v1/tasks?limit=10&offset=0], and no
    parameters give [/api/v1/tasks]. *)
Theorem getTasks_query_string (P : Platform) (net : FetchRequest -> NetBehaviour)
    (env : option string) (params : option TaskApi.TaskQueryParams) :
  TaskApi.getTasks P net env params
  = ApiClient.get P net (ApiClient.apiClient env) (TaskApi.getTasks_endpoint P params) None
  /\ TaskApi.getTasks_query P params = present_params P params
  /\ TaskApi.getTasks_endpoint P params
     = match present_params P params with
       | [] => "/api/v1/tasks"
       | pairs => "/api/v1/tasks?" +:+ String.concat "&" (map encoded_pair pairs)
       end
  /\ (safe_params params = true ->
      TaskApi.getTasks_endpoint P params
      = match present_params P params with
        | [] => "/api/v1/tasks"
        | pairs => "/api/v1/tasks?" +:+ String.concat "&" (map plain_pair pairs)
        end)
  /\ TaskApi.getTasks_endpoint P
       (Some {| TaskApi.is_completed := None;
                TaskApi.limit := Some 10;
                TaskApi.offset := Some 0 |})
     = "/api/v1/tasks?limit=10&offset=0"
  /\ TaskApi.getTasks_endpoint P None = "/api/v1/tasks"
  /\ TaskApi.getTasks_endpoint P
       (Some {| TaskApi.is_completed := None;
                TaskApi.limit := None;
                TaskApi.offset := None |})
     = "/api/v1/tasks".
Proof.
  split; [reflexivity |].
  assert (Hquery : TaskApi.getTasks_query P params = present_params P params).
  { destruct params as [[[[] |] [l |] [o |]] |]; reflexivity. }
  split; [exact Hquery |].
  assert (Hencoded : TaskApi.getTasks_endpoint P params
                     = match present_params P params with
                       | [] => "/api/v1/tasks"
                       | pairs => "/api/v1/tasks?"
                                  +:+ String.concat "&" (map encoded_pair pairs)
                       end).
  { assert (Hname : forall name v,
              TaskApi.urlencode name = name ->
              TaskApi.serialize_pair (name, v) = encoded_pair (name, v)).
    { intros name v Hn. unfold TaskApi.serialize_pair, encoded_pair. simpl.
      by rewrite Hn. }
    unfold TaskApi.getTasks_endpoint. rewrite Hquery. unfold TaskApi.toString.
    destruct params as [[[[] |] [l |] [o |]] |]; unfold present_params; simpl map;
      rewrite ?Hname by reflexivity; reflexivity. }
  split; [exact Hencoded |].
  split; [| by repeat split].
  intros Hsafe. rewrite Hencoded.
  unfold safe_params in Hsafe. apply andb_true_iff in Hsafe as [Hl Ho].
  destruct params as [[[[] |] [l |] [o |]] |]; simpl in Hl, Ho;
    unfold present_params, TaskApi.field, encoded_pair, plain_pair; simpl;
    rewrite ?Hl, ?Ho, ?urlencode_pretty_Z; reflexivity.
Qed.

Lemma getTasks_query_string_witness :
  let params := Some {| TaskApi.is_completed := Some false;
                        TaskApi.limit := Some 25;
                        TaskApi.offset := Some (-1) |} in
  TaskApi.getTasks_endpoint Sample.platform params
  = match present_params Sample.platform params with
    | [] => "/api/v1/tasks"
    | pairs => "/api/v1/tasks?" +:+ String.concat "&" (map plain_pair pairs)
    end.
Proof.
  intros params.
  apply (getTasks_query_string Sample.platform (Sample.always Stalls) None params).
  reflexivity.
Defined.

(** * Further properties *)

(** ** The token store *)

(** In a browser, a token written by [setAuthToken] is the one
    [getAuthToken] reads next, whatever was stored before. *)
Theorem token_store_set_then_get (P : Platform) (m : gmap string string)
    (tr : list Effect) (t : string) :
  bind (Auth.setAuthToken P (JStr t)) (fun _ => Auth.getAuthToken)
    {| storage := Some m; trace := tr |}
  = (Return (Some t),
     {| storage := Some (<["auth_token" := t]> m);
        trace := tr ++ [ESetItem "auth_token" t] |}).
Proof.
  unfold Auth.setAuthToken, Auth.getAuthToken. run.
  by rewrite lookup_insert_eq.
Qed.

(** After [removeAuthToken], [getAuthToken] reads [null]; removing twice
    leaves the same storage as removing once. *)
Theorem token_store_remove_then_get (m : gmap string string) (tr : list Effect) :
  (bind Auth.removeAuthToken (fun _ => Auth.getAuthToken)
     {| storage := Some m; trace := tr |}).1 = Return None
  /\ storage (bind Auth.removeAuthToken (fun _ => Auth.removeAuthToken)
                {| storage := Some m; trace := tr |}).2
     = storage (Auth.removeAuthToken {| storage := Some m; trace := tr |}).2.
Proof.
  unfold Auth.removeAuthToken, Auth.getAuthToken. run.
  rewrite lookup_delete_eq. split; [done |].
  by rewrite delete_delete_eq.
Qed.

(** Writing or removing the token leaves every other storage key alone. *)
Theorem token_store_frame (P : Platform) (v : JSValue) (s : St) (key : string) :
  key <> "auth_token" ->
  stored_token key (storage (Auth.setAuthToken P v s).2) = stored_token key (storage s)
  /\ stored_token key (storage (Auth.removeAuthToken s).2) = stored_token key (storage s).
Proof.
  intros Hkey. unfold Auth.setAuthToken, Auth.removeAuthToken. run.
  destruct s as [[m |] tr]; simpl; [| done].
  by rewrite lookup_insert_ne, lookup_delete_ne.
Qed.

Lemma token_store_frame_witness :
  let s := {| storage := Some {[ "theme" := "dark"; "auth_token" := "a.b.c" ]};
              trace := [] |} in
  stored_token "theme" (storage (Auth.setAuthToken Sample.platform (JStr "x.y.z") s).2)
  = Some "dark"
  /\ stored_token "theme" (storage (Auth.removeAuthToken s).2) = Some "dark".
Proof.
  intros s.
  destruct (token_store_frame Sample.platform (JStr "x.y.z") s "theme") as [Hset Hrm].
  - discriminate.
  - rewrite Hset, Hrm. split; reflexivity.
Defined.

(** Without a [window] the three helpers do nothing: the read answers
    [null], the write and the removal return, and no storage access is
    attempted. *)
Theorem token_store_without_window (P : Platform) (v : JSValue) (tr : list Effect) :
  let s := {| storage := None; trace := tr |} in
  Auth.getAuthToken s = (Return None, s)
  /\ Auth.setAuthToken P v s = (Return tt, s)
  /\ Auth.removeAuthToken s = (Return tt, s).
Proof. by repeat split. Qed.

(** ** Splitting *)

Lemma concat_two (sep x y : string) (l : list string) :
  String.concat sep (x :: y :: l) = x +:+ sep +:+ String.concat sep (y :: l).
Proof. reflexivity. Qed.

(** Joining the segments of [split] with the separator gives the string
    back. *)
Theorem split_join (sep : ascii) (s : string) :
  String.concat (String sep EmptyString) (split sep s) = s.
Proof.
  induction s as [| c rest IH]; [done |].
  cbn [split].
  destruct (split sep rest) as [| seg segs] eqn:Hsplit;
    [by destruct (split_nonempty sep rest) |].
  destruct (Ascii.eqb_spec c sep) as [-> | Hne].
  - rewrite concat_two, IH. reflexivity.
  - destruct segs as [| seg' segs].
    + cbn in IH |- *. by rewrite IH.
    + rewrite concat_two. rewrite concat_two in IH.
      rewrite <- IH. reflexivity.
Qed.

(** [split] yields one segment more than there are separators, and no
    segment contains the separator. *)
Theorem split_segments (sep : ascii) (s : string) :
  List.length (split sep s) = S (occurrences sep s)
  /\ Forall (fun seg => occurrences sep seg = 0%nat) (split sep s).
Proof.
  induction s as [| c rest [IHlen IHall]]; [by repeat constructor |].
  simpl. destruct (Ascii.eqb_spec c sep) as [-> | Hne].
  - simpl. split; [by rewrite IHlen | by constructor].
  - destruct (split sep rest) as [| seg segs]; [done |].
    simpl in *. split; [done |].
    inversion IHall as [| ? ? Hseg Hsegs]; subst.
    constructor; [| done]. simpl.
    by destruct (Ascii.eqb_spec c sep).
Qed.

(** ** More on the session check *)

(** Close a goal about one fully evaluated run. *)
Ltac finish_run :=
  simpl; rewrite ?fetched_app, ?timers_app; simpl; rewrite ?app_nil_r;
  unfold at_most_removed; simpl;
  repeat split; try done; try (by left); try (by right);
  try (intros; split; [done | eauto]); auto.

(** [checkAuthState] always returns a session: it neither throws nor
    hangs, it sends nothing, and the storage afterwards is the one before or
    has lost the token and nothing else.  An authenticated answer comes
    with a user and leaves the whole state untouched. *)
Theorem checkAuthState_safe (P : Platform) (s : St) :
  exists session s',
    Auth.checkAuthState P s = (Return session, s')
    /\ fetched (trace s') = fetched (trace s)
    /\ at_most_removed "auth_token" (storage s) (storage s')
    /\ (Auth.isAuthenticated session = true -> s' = s /\ is_Some (Auth.user session)).
Proof.
  destruct s as [[m |] tr]; unfold Auth.checkAuthState, Auth.getAuthToken,
    Auth.removeAuthToken; run.
  2: { eexists _, _. split; [reflexivity |]. finish_run. }
  destruct (no_token (m !! "auth_token")).
  { eexists _, _. split; [reflexivity |]. finish_run. }
  simpl. destruct (negb _).
  { eexists _, _. split; [reflexivity |]. finish_run. }
  destruct (atob P _) as [text |]; simpl.
  2: { eexists _, _. split; [reflexivity |]. finish_run. }
  destruct (JSON_parse P text) as [payload |]; simpl.
  2: { eexists _, _. split; [reflexivity |]. finish_run. }
  destruct (get_prop payload "sub") as [sub |] eqn:Hsub; simpl.
  2: { eexists _, _. split; [reflexivity |]. finish_run. }
  assert (Hprops : forall k, exists y, get_prop payload k = Some y).
  { intros k. destruct payload; simpl in *; try done; eauto. }
  destruct (Hprops "email") as [mail ->]. destruct (Hprops "exp") as [exp ->]. simpl.
  destruct (truthy exp && js_lt P exp (Date_now P `div` 1000)); simpl.
  - eexists _, _. split; [reflexivity |]. finish_run.
  - eexists _, _. split; [reflexivity |]. finish_run.
Qed.

(** A decodable three-segment token whose payload has no expiry claim is
    accepted: the session is authenticated, its user carries the payload's
    [sub] and its [email] (the empty string when absent or falsy), and the
    state is untouched. *)
Theorem checkAuthState_without_expiry (P : Platform)
    (m : gmap string string) (tr : list Effect)
    (tok header seg sig text : string) (fields : list (string * JSValue)) :
  m !! "auth_token" = Some tok ->
  split "." tok = [header; seg; sig] ->
  atob P seg = Some text ->
  JSON_parse P text = Some (JObj fields) ->
  assoc "exp" fields = None ->
  Auth.checkAuthState P {| storage := Some m; trace := tr |}
  = (Return (session_of fields), {| storage := Some m; trace := tr |}).
Proof.
  intros Hm Hsplit Hatob Hparse Hexp.
  unfold Auth.checkAuthState, Auth.getAuthToken. run.
  rewrite Hm, no_token_three_segments by (by rewrite Hsplit). simpl.
  rewrite Hsplit. simpl. rewrite Hatob. simpl. rewrite Hparse. simpl.
  by rewrite Hexp.
Qed.

(** The expiry test is strict: a numeric expiry equal to or above the
    current time in whole seconds keeps the token and the session
    authenticated. *)
Theorem checkAuthState_not_yet_expired (P : Platform)
    (m : gmap string string) (tr : list Effect)
    (tok header seg sig text : string) (fields : list (string * JSValue)) (exp : Z) :
  m !! "auth_token" = Some tok ->
  split "." tok = [header; seg; sig] ->
  atob P seg = Some text ->
  JSON_parse P text = Some (JObj fields) ->
  assoc "exp" fields = Some (JNum exp) ->
  Date_now P `div` 1000 <= exp ->
  Auth.checkAuthState P {| storage := Some m; trace := tr |}
  = (Return (session_of fields), {| storage := Some m; trace := tr |}).
Proof.
  intros Hm Hsplit Hatob Hparse Hexp Hle.
  unfold Auth.checkAuthState, Auth.getAuthToken. run.
  rewrite Hm, no_token_three_segments by (by rewrite Hsplit). simpl.
  rewrite Hsplit. simpl. rewrite Hatob. simpl. rewrite Hparse. simpl.
  rewrite Hexp. simpl. unfold js_lt. simpl.
  destruct (Z.ltb_spec exp (Date_now P `div` 1000)); [lia |].
  by rewrite andb_false_r.
Qed.

(** A three-segment token whose middle segment is not base64, or does not
    decode to JSON, or decodes to [null], is logged and removed, and the
    session is unauthenticated. *)
Theorem checkAuthState_undecodable (P : Platform)
    (m : gmap string string) (tr : list Effect) (tok header seg sig : string) :
  m !! "auth_token" = Some tok ->
  split "." tok = [header; seg; sig] ->
  atob P seg ≫= JSON_parse P = None \/ atob P seg ≫= JSON_parse P = Some JNull ->
  Auth.checkAuthState P {| storage := Some m; trace := tr |}
  = (Return Auth.unauthenticated,
     {| storage := Some (base.delete "auth_token" m);
        trace := tr ++ [EConsoleError "Error decoding token:";
                        ERemoveItem "auth_token"] |}).
Proof.
  intros Hm Hsplit Hbad.
  unfold Auth.checkAuthState, Auth.getAuthToken, Auth.removeAuthToken. run.
  rewrite Hm, no_token_three_segments by (by rewrite Hsplit). simpl.
  rewrite Hsplit. simpl.
  destruct (atob P seg) as [text |]; simpl in *.
  - destruct Hbad as [-> | ->]; simpl; by rewrite <- app_assoc.
  - by rewrite <- app_assoc.
Qed.

Lemma checkAuthState_without_expiry_witness :
  Auth.checkAuthState Fixture.platform
    (Sample.stored "h.eyJzdWIiOiJ1MiIsImVtYWlsIjoidTJAeC5pbyJ9.s")
  = (Return {| Auth.isAuthenticated := true;
               Auth.user := Some {| Auth.userId := JStr "u2";
                                    Auth.email := JStr "u2@x.io" |} |},
     Sample.stored "h.eyJzdWIiOiJ1MiIsImVtYWlsIjoidTJAeC5pbyJ9.s").
Proof.
  apply (checkAuthState_without_expiry Fixture.platform
           {[ "auth_token" := "h.eyJzdWIiOiJ1MiIsImVtYWlsIjoidTJAeC5pbyJ9.s" ]} []
           "h.eyJzdWIiOiJ1MiIsImVtYWlsIjoidTJAeC5pbyJ9.s"
           "h" "eyJzdWIiOiJ1MiIsImVtYWlsIjoidTJAeC5pbyJ9" "s"
           Fixture.no_expiry_text
           [("sub", JStr "u2"); ("email", JStr "u2@x.io")]); reflexivity.
Defined.

Lemma checkAuthState_not_yet_expired_witness :
  Auth.checkAuthState Fixture.platform
    (Sample.stored "h.eyJzdWIiOiJ1MyIsImV4cCI6NDEwMjQ0NDgwMH0.s")
  = (Return {| Auth.isAuthenticated := true;
               Auth.user := Some {| Auth.userId := JStr "u3";
                                    Auth.email := JStr "" |} |},
     Sample.stored "h.eyJzdWIiOiJ1MyIsImV4cCI6NDEwMjQ0NDgwMH0.s").
Proof.
  apply (checkAuthState_not_yet_expired Fixture.platform
           {[ "auth_token" := "h.eyJzdWIiOiJ1MyIsImV4cCI6NDEwMjQ0NDgwMH0.s" ]} []
           "h.eyJzdWIiOiJ1MyIsImV4cCI6NDEwMjQ0NDgwMH0.s"
           "h" "eyJzdWIiOiJ1MyIsImV4cCI6NDEwMjQ0NDgwMH0" "s"
           Fixture.far_expiry_text
           [("sub", JStr "u3"); ("exp", JNum 4102444800)] 4102444800);
    try reflexivity.
  vm_compute. discriminate.
Defined.

Lemma checkAuthState_undecodable_witness :
  (Auth.checkAuthState Fixture.platform (Sample.stored "h.???.s")).1
  = Return Auth.unauthenticated
  /\ storage (Auth.checkAuthState Fixture.platform (Sample.stored "h.bnVsbA.s")).2
     = Some (base.delete "auth_token" {[ "auth_token" := "h.bnVsbA.s" ]}).
Proof.
  unfold Sample.stored. split.
  - rewrite (checkAuthState_undecodable Fixture.platform
               {[ "auth_token" := "h.???.s" ]} [] "h.???.s" "h" "???" "s");
      [reflexivity | reflexivity | reflexivity | left; reflexivity].
  - rewrite (checkAuthState_undecodable Fixture.platform
               {[ "auth_token" := "h.bnVsbA.s" ]} [] "h.bnVsbA.s" "h" "bnVsbA" "s");
      [reflexivity | reflexivity | reflexivity | right; reflexivity].
Defined.

Lemma checkAuthState_expired_nonzero_witness :
  Auth.checkAuthState Sample.platform (Sample.stored "h.eyJzdWIiOiJ1MSIsImV4cCI6MX0.s")
  = (Return Auth.unauthenticated,
     {| storage := Some (base.delete "auth_token"
                           {[ "auth_token" := "h.eyJzdWIiOiJ1MSIsImV4cCI6MX0.s" ]});
        trace := [ERemoveItem "auth_token"] |}).
Proof.
  apply (checkAuthState_expired_nonzero Sample.platform
           {[ "auth_token" := "h.eyJzdWIiOiJ1MSIsImV4cCI6MX0.s" ]} []
           "h.eyJzdWIiOiJ1MSIsImV4cCI6MX0.s" "h" "eyJzdWIiOiJ1MSIsImV4cCI6MX0" "s"
           (Sample.payload_text "1") [("sub", JStr "u1"); ("exp", JNum 1)] 1);
    try reflexivity.
  discriminate.
Defined.

(** ** Signing in and signing up *)

Ltac sign_run P net base email password sto :=
  unfold Auth.signIn, Auth.signUp, Auth.setAuthToken, sign_outcome, error_data;
  run;
  destruct (net (Auth.auth_request P base _ email password)) as [r | e |];
    simpl; [| done | done];
  destruct (ok r); simpl;
  [ destruct (json r) as [data |]; simpl; [| done];
    destruct (get_prop data "access_token") as [a |]; simpl; [| done];
    destruct (get_prop data "user") as [u |]; simpl; [| done];
    destruct sto; simpl; by rewrite <- ?app_assoc, ?app_nil_r
  | by destruct (get_prop (default (JObj []) (json r)) "detail") ].

Lemma signIn_run (P : Platform) (net : FetchRequest -> NetBehaviour)
    (base email password : string) (sto : option (gmap string string))
    (tr : list Effect) :
  Auth.signIn P net base email password {| storage := sto; trace := tr |}
  = sign_outcome P net sto tr
      (Auth.auth_request P base "/api/v1/auth/signin" email password)
      "Sign in error:" "Sign in failed".
Proof. sign_run P net base email password sto. Qed.

Lemma signUp_run (P : Platform) (net : FetchRequest -> NetBehaviour)
    (base email password : string) (sto : option (gmap string string))
    (tr : list Effect) :
  Auth.signUp P net base email password {| storage := sto; trace := tr |}
  = sign_outcome P net sto tr
      (Auth.auth_request P base "/api/v1/auth/signup" email password)
      "Sign up error:" "Sign up failed".
Proof. sign_run P net base email password sto. Qed.

(** On a 2xx response whose body carries [access_token: t] and [user: u],
    [signUp] writes [t] under [auth_token] wherever a storage exists and
    resolves to [{user: u, token: t}]. *)
Theorem signUp_round_trip (P : Platform) (net : FetchRequest -> NetBehaviour)
    (base email password : string) (sto : option (gmap string string))
    (tr : list Effect) (r : Response) (fields : list (string * JSValue))
    (t : string) (u : JSValue) :
  net (Auth.auth_request P base "/api/v1/auth/signup" email password) = Responds r ->
  ok r = true ->
  json r = Some (JObj fields) ->
  assoc "access_token" fields = Some (JStr t) ->
  assoc "user" fields = Some u ->
  Auth.signUp P net base email password {| storage := sto; trace := tr |}
  = (Return {| Auth.result_user := u; Auth.token := JStr t |},
     {| storage := <["auth_token" := t]> <$> sto;
        trace := tr ++ EFetch (Auth.auth_request P base "/api/v1/auth/signup"
                                 email password) :: set_log sto t |}).
Proof.
  intros Hnet Hok Hjson Htok Huser.
  rewrite signUp_run. unfold sign_outcome.
  rewrite Hnet, Hok, Hjson. simpl. rewrite Htok, Huser. simpl.
  by rewrite <- app_assoc.
Qed.

Lemma signUp_round_trip_witness :
  let user := JObj [("id", JNum 2); ("email", JStr "y")] in
  let fields := [("access_token", JStr "d.e.f"); ("user", user)] in
  let r := {| resp_status := 201; json := Some (JObj fields) |} in
  (Auth.signUp Sample.platform (Sample.always (Responds r))
     "http://127.0.0.1:8000" "y" "pw" (start (Some ∅))).1
  = Return {| Auth.result_user := user; Auth.token := JStr "d.e.f" |}.
Proof.
  intros user fields r. unfold start.
  rewrite (signUp_round_trip Sample.platform (Sample.always (Responds r))
             "http://127.0.0.1:8000" "y" "pw" (Some ∅) [] r fields "d.e.f" user);
    reflexivity.
Defined.

(** A non-2xx answer to [signIn] or [signUp] whose body is not the JSON
    value [null], so that its [detail] can be read, is thrown as an [Error]
    whose message is that [detail] when truthy and the fixed fallback
    otherwise; a body that is not JSON counts as an empty object.  The
    failure is logged and the storage is untouched. *)
Theorem sign_in_up_rejected (P : Platform) (net : FetchRequest -> NetBehaviour)
    (base email password : string) (sto : option (gmap string string))
    (tr : list Effect) (r : Response) (detail : JSValue) :
  let signin := Auth.auth_request P base "/api/v1/auth/signin" email password in
  let signup := Auth.auth_request P base "/api/v1/auth/signup" email password in
  net signin = Responds r ->
  net signup = Responds r ->
  ok r = false ->
  get_prop (error_data r) "detail" = Some detail ->
  Auth.signIn P net base email password {| storage := sto; trace := tr |}
  = (Throw (ThrowJs (plain_error
                       (if truthy detail then ToString P detail else "Sign in failed"))),
     {| storage := sto;
        trace := tr ++ [EFetch signin; EConsoleError "Sign in error:"] |})
  /\ Auth.signUp P net base email password {| storage := sto; trace := tr |}
     = (Throw (ThrowJs (plain_error
                          (if truthy detail then ToString P detail else "Sign up failed"))),
        {| storage := sto;
           trace := tr ++ [EFetch signup; EConsoleError "Sign up error:"] |}).
Proof.
  intros signin signup Hin Hup Hok Hdetail.
  rewrite signIn_run, signUp_run. unfold sign_outcome. fold signin signup.
  rewrite Hin, Hup, Hok, Hdetail. unfold js_or.
  destruct (truthy detail); simpl; by rewrite <- !app_assoc.
Qed.

Lemma sign_in_up_rejected_witness :
  let r := {| resp_status := 401;
              json := Some (JObj [("detail", JStr "Invalid credentials")]) |} in
  let quiet := {| resp_status := 500; json := None |} in
  (Auth.signIn Sample.platform (Sample.always (Responds r))
     "http://127.0.0.1:8000" "x" "pw" (Sample.stored "a.b.c")).1
  = Throw (ThrowJs (plain_error "Invalid credentials"))
  /\ (Auth.signUp Sample.platform (Sample.always (Responds quiet))
        "http://127.0.0.1:8000" "x" "pw" (Sample.stored "a.b.c")).1
     = Throw (ThrowJs (plain_error "Sign up failed")).
Proof.
  intros r quiet. unfold Sample.stored. split.
  - destruct (sign_in_up_rejected Sample.platform (Sample.always (Responds r))
                "http://127.0.0.1:8000" "x" "pw" (Some {[ "auth_token" := "a.b.c" ]}) []
                r (JStr "Invalid credentials")) as [Hin _];
      [reflexivity | reflexivity | reflexivity | reflexivity |].
    rewrite Hin. reflexivity.
  - destruct (sign_in_up_rejected Sample.platform (Sample.always (Responds quiet))
                "http://127.0.0.1:8000" "x" "pw" (Some {[ "auth_token" := "a.b.c" ]}) []
                quiet JUndefined) as [_ Hup];
      [reflexivity | reflexivity | reflexivity | reflexivity |].
    rewrite Hup. reflexivity.
Defined.

(** [signIn] and [signUp] change the storage exactly when they resolve,
    and then only by writing the token they resolve with: a throw or a
    request that never settles leaves the storage as it was. *)
Theorem sign_in_up_storage (P : Platform) (net : FetchRequest -> NetBehaviour)
    (base email password : string) (s : St) :
  let after (out : Completion Auth.AuthResult * St) :=
    match out.1 with
    | Return result => <["auth_token" := ToString P (Auth.token result)]> <$> storage s
    | _ => storage s
    end in
  storage (Auth.signIn P net base email password s).2
  = after (Auth.signIn P net base email password s)
  /\ storage (Auth.signUp P net base email password s).2
     = after (Auth.signUp P net base email password s).
Proof.
  intros after. subst after. destruct s as [sto tr].
  rewrite signIn_run, signUp_run. unfold sign_outcome. simpl.
  split.
  - destruct (net _) as [r | e |]; [| done | done].
    destruct (ok r).
    + destruct (json r) as [data |]; [| done].
      by destruct (get_prop data "access_token"), (get_prop data "user").
    + by destruct (get_prop (error_data r) "detail").
  - destruct (net _) as [r | e |]; [| done | done].
    destruct (ok r).
    + destruct (json r) as [data |]; [| done].
      by destruct (get_prop data "access_token"), (get_prop data "user").
    + by destruct (get_prop (error_data r) "detail").
Qed.

(** The token [signIn] stores is the one the API client sends next: after
    a successful sign-in with token [t], a [get] without caller headers
    sends exactly one request, with [Authorization: Bearer t]. *)
Theorem signIn_then_get (P : Platform) (net : FetchRequest -> NetBehaviour)
    (base email password : string) (m : gmap string string) (tr : list Effect)
    (r : Response) (fields : list (string * JSValue)) (t : string)
    (env : option string) (endpoint : string) :
  net (Auth.auth_request P base "/api/v1/auth/signin" email password) = Responds r ->
  ok r = true ->
  json r = Some (JObj fields) ->
  assoc "access_token" fields = Some (JStr t) ->
  t <> "" ->
  let s1 := (Auth.signIn P net base email password {| storage := Some m; trace := tr |}).2 in
  let s2 := (ApiClient.get P net (ApiClient.apiClient env) endpoint None s1).2 in
  exists req,
    fetched (trace s2) = (fetched (trace s1) ++ [req])%list
    /\ url req = ApiClient.baseUrl (ApiClient.apiClient env) +:+ endpoint
    /\ headers req !! "Authorization" = Some ("Bearer " +:+ t).
Proof.
  intros Hnet Hok Hjson Htok Hne s1 s2. subst s2 s1.
  rewrite signIn_run. unfold sign_outcome.
  rewrite Hnet, Hok, Hjson. simpl. rewrite Htok. simpl.
  unfold ApiClient.get.
  eexists. split; [| split].
  - apply request_fetches_once; [apply lookup_insert_eq | done].
  - reflexivity.
  - reflexivity.
Qed.

Lemma signIn_then_get_witness :
  let fields := [("access_token", JStr "a.b.c"); ("user", JNull)] in
  let r := {| resp_status := 200; json := Some (JObj fields) |} in
  let net := Sample.always (Responds r) in
  let s1 := (Auth.signIn Sample.platform net "http://127.0.0.1:8000" "x" "pw"
               (start (Some ∅))).2 in
  let s2 := (ApiClient.get Sample.platform net (ApiClient.apiClient None)
               "/api/v1/tasks" None s1).2 in
  exists req,
    fetched (trace s2) = (fetched (trace s1) ++ [req])%list
    /\ url req = "http://localhost:8000/api/v1/tasks"
    /\ headers req !! "Authorization" = Some "Bearer a.b.c".
Proof.
  intros fields r net s1 s2.
  apply (signIn_then_get Sample.platform net "http://127.0.0.1:8000" "x" "pw"
           ∅ [] r fields "a.b.c" None "/api/v1/tasks");
    try reflexivity.
  discriminate.
Defined.

(** ** Fetching the current user *)

Lemma getCurrentUser_no_token (net : FetchRequest -> NetBehaviour)
    (base : string) (s : St) :
  no_token (stored_token "auth_token" (storage s)) = true ->
  Auth.getCurrentUser net base s
  = (Throw (ThrowJs (plain_error "No authentication token found")), s).
Proof.
  intros Hno. unfold Auth.getCurrentUser, Auth.getAuthToken. run.
  destruct s as [[m |] tr]; simpl in *; [| done].
  destruct (m !! "auth_token") as [tok |]; simpl in *; [| done].
  by rewrite Hno.
Qed.

(** Without a stored token, or with an empty one, [getCurrentUser] throws
    at once: nothing is sent, nothing is logged, nothing changes. *)
Theorem getCurrentUser_without_token (net : FetchRequest -> NetBehaviour)
    (base : string) (s : St) :
  no_token (stored_token "auth_token" (storage s)) = true ->
  fetched (trace (Auth.getCurrentUser net base s).2) = fetched (trace s)
  /\ Auth.getCurrentUser net base s
     = (Throw (ThrowJs (plain_error "No authentication token found")), s).
Proof. intros Hno. by rewrite getCurrentUser_no_token. Qed.

Lemma getCurrentUser_without_token_witness :
  Auth.getCurrentUser (Sample.always Stalls) "http://127.0.0.1:8000" (Sample.stored "")
  = (Throw (ThrowJs (plain_error "No authentication token found")), Sample.stored "").
Proof.
  apply (getCurrentUser_without_token (Sample.always Stalls) "http://127.0.0.1:8000"
           (Sample.stored "")).
  reflexivity.
Defined.

Lemma getCurrentUser_run (net : FetchRequest -> NetBehaviour) (base : string)
    (m : gmap string string) (tr : list Effect) (tok : string) :
  m !! "auth_token" = Some tok ->
  tok <> "" ->
  Auth.getCurrentUser net base {| storage := Some m; trace := tr |}
  = let sent := (tr ++ [EFetch (Auth.me_request base tok)])%list in
    let failed (t : Thrown) :=
      (Throw t, {| storage := Some m;
                   trace := sent ++ [EConsoleError "Error fetching user:"] |}) in
    match net (Auth.me_request base tok) with
    | Stalls => (Hang, {| storage := Some m; trace := sent |})
    | Fails e => failed (ThrowJs e)
    | Responds r =>
        if ok r then
          match json r with
          | Some v => (Return v, {| storage := Some m; trace := sent |})
          | None => (Throw (ThrowJs (syntax_error "Unexpected token")),
                     {| storage := Some m; trace := sent |})
          end
        else failed (ThrowJs (plain_error "Failed to fetch user data"))
    end.
Proof.
  intros Hm Hne. unfold Auth.getCurrentUser, Auth.getAuthToken. run.
  rewrite Hm. simpl. destruct (String.eqb_spec tok ""); [done |]. simpl.
  destruct (net (Auth.me_request base tok)) as [r | e |]; simpl; [| done | done].
  destruct (ok r); simpl; [| done]. by destruct (json r).
Qed.

(** With a stored token [getCurrentUser] sends one GET to
    [/api/v1/auth/me] carrying [Bearer <token>].  Whatever comes back, the
    storage is left alone: any non-2xx answer, a 401 included, is thrown as
    [Failed to fetch user data] with the token still stored, and a 2xx JSON
    body is returned as it is. *)
Theorem getCurrentUser_with_token (net : FetchRequest -> NetBehaviour) (base : string)
    (m : gmap string string) (tr : list Effect) (tok : string) :
  m !! "auth_token" = Some tok ->
  tok <> "" ->
  let out := Auth.getCurrentUser net base {| storage := Some m; trace := tr |} in
  let req := Auth.me_request base tok in
  storage out.2 = Some m
  /\ fetched (trace out.2) = (fetched tr ++ [req])%list
  /\ url req = base +:+ "/api/v1/auth/me"
  /\ method req = "GET"
  /\ headers req !! "Authorization" = Some ("Bearer " +:+ tok)
  /\ (forall r, net req = Responds r -> ok r = false ->
      out.1 = Throw (ThrowJs (plain_error "Failed to fetch user data")))
  /\ (forall r v, net req = Responds r -> ok r = true -> json r = Some v ->
      out.1 = Return v).
Proof.
  intros Hm Hne out req. subst out.
  rewrite (getCurrentUser_run net base m tr tok Hm Hne). simpl. fold req.
  split; [| split; [| split; [| split; [| split; [| split]]]]].
  - destruct (net req) as [r | e |]; [| done | done].
    destruct (ok r); [| done]. by destruct (json r).
  - destruct (net req) as [r | e |]; [| | ].
    + destruct (ok r); [destruct (json r) |]; finish_run.
    + finish_run.
    + finish_run.
  - done.
  - done.
  - unfold req, Auth.me_request, Auth.bearer_headers. simpl. by rewrite lookup_insert_eq.
  - intros r Hnet Hok. by rewrite Hnet, Hok.
  - intros r v Hnet Hok Hjson. by rewrite Hnet, Hok, Hjson.
Qed.

Lemma getCurrentUser_with_token_witness :
  let r := {| resp_status := 401; json := None |} in
  let out := Auth.getCurrentUser (Sample.always (Responds r)) "http://127.0.0.1:8000"
               (Sample.stored "a.b.c") in
  out.1 = Throw (ThrowJs (plain_error "Failed to fetch user data"))
  /\ storage out.2 = Some {[ "auth_token" := "a.b.c" ]}.
Proof.
  intros r out.
  destruct (getCurrentUser_with_token (Sample.always (Responds r))
              "http://127.0.0.1:8000" {[ "auth_token" := "a.b.c" ]} [] "a.b.c")
    as (Hsto & _ & _ & _ & _ & Hrej & _).
  - reflexivity.
  - discriminate.
  - split; [apply (Hrej r); reflexivity | exact Hsto].
Defined.

(** ** Signing out *)

(** After [signOut] nothing authenticated reaches the network: the session
    check answers unauthenticated, [refreshToken] resolves to [null],
    [getCurrentUser] and the API client throw their missing-token errors,
    each leaving the state as [signOut] left it. *)
Theorem signOut_then (P : Platform) (net : FetchRequest -> NetBehaviour)
    (base : string) (env : option string) (endpoint : string)
    (options : ApiClient.RequestInit) (s : St) :
  let s1 := (Auth.signOut s).2 in
  Auth.checkAuthState P s1 = (Return Auth.unauthenticated, s1)
  /\ Auth.refreshToken P net base s1 = (Return JNull, s1)
  /\ Auth.getCurrentUser net base s1
     = (Throw (ThrowJs (plain_error "No authentication token found")), s1)
  /\ ApiClient.request P net (ApiClient.apiClient env) endpoint options s1
     = (Throw (ThrowApi (new_ApiError P "No authentication token found" 401
                           (Some (JStr "AUTH_001")) None (Some false))), s1).
Proof.
  intros s1.
  assert (Hno : no_token (stored_token "auth_token" (storage s1)) = true).
  { subst s1. unfold Auth.signOut, Auth.removeAuthToken. run.
    destruct s as [[m |] tr]; simpl; [| done]. by rewrite lookup_delete_eq. }
  split; [| split; [| split]].
  - unfold Auth.checkAuthState, Auth.getAuthToken. run.
    destruct s1 as [[m |] tr]; simpl in *; [| done].
    destruct (m !! "auth_token") as [tok |]; simpl in *; [| done].
    by rewrite Hno.
  - by apply refreshToken_no_token.
  - by apply getCurrentUser_no_token.
  - by apply request_no_token.
Qed.

(** ** More on the request pipeline *)

Section RunInv.

Variable R : St -> St -> Prop.
Hypothesis R_refl : forall s, R s s.
Hypothesis R_trans : forall s1 s2 s3, R s1 s2 -> R s2 s3 -> R s1 s3.

Lemma inv_ret {A} (a : A) : run_inv R (ret a).
Proof. intros s. apply R_refl. Qed.

Lemma inv_throw {A} t : run_inv R (@throw A t).
Proof. intros s. apply R_refl. Qed.

Lemma inv_bind {A B} (m : M A) (f : A -> M B) :
  run_inv R m -> (forall a, run_inv R (f a)) -> run_inv R (bind m f).
Proof.
  intros Hm Hf s. unfold bind. pose proof (Hm s) as HR.
  destruct (m s) as [[a | t |] s1]; simpl in *; [| done | done].
  eapply R_trans; [exact HR | apply Hf].
Qed.

Lemma inv_try_catch {A} (m : M A) (h : Thrown -> M A) :
  run_inv R m -> (forall t, run_inv R (h t)) -> run_inv R (try_catch m h).
Proof.
  intros Hm Hh s. unfold try_catch. pose proof (Hm s) as HR.
  destruct (m s) as [[a | t |] s1]; simpl in *; [done | | done].
  eapply R_trans; [exact HR | apply Hh].
Qed.

Lemma inv_or_throw {A} (o : option A) e : run_inv R (or_throw o e).
Proof. destruct o; [apply inv_ret | apply inv_throw]. Qed.

Lemma inv_has_window : run_inv R has_window.
Proof. intros s. apply R_refl. Qed.

Lemma inv_if {A} (b : bool) (m1 m2 : M A) :
  run_inv R m1 -> run_inv R m2 -> run_inv R (if b then m1 else m2).
Proof. by destruct b. Qed.

End RunInv.

Lemma same_storage_trans s1 s2 s3 :
  same_storage s1 s2 -> same_storage s2 s3 -> same_storage s1 s3.
Proof. unfold same_storage. congruence. Qed.

Lemma inv_emit_storage e : run_inv same_storage (emit e).
Proof. by intros s. Qed.

Lemma on_error_inv (P : Platform) (armed : bool) (error : Thrown) :
  run_inv same_storage (ApiClient.on_error P armed error).
Proof.
  unfold ApiClient.on_error.
  apply inv_bind; [apply same_storage_trans | |].
  - destruct armed; [apply inv_emit_storage | by apply inv_ret].
  - intros _. destruct error as [e | e]; [by apply inv_throw |].
    apply inv_if; by apply inv_throw.
Qed.

(** Apart from the 401 branch, handling a response leaves the storage
    alone. *)
Lemma on_response_inv (P : Platform) (config : ApiClient.ApiClientConfig)
    (armed : bool) (r : Response) :
  resp_status r <> 401 ->
  run_inv same_storage (ApiClient.on_response P config armed r).
Proof.
  intros H401. unfold ApiClient.on_response, ApiClient.or_else,
    ApiClient.status_message, response_json_or_empty, response_json, prop.
  destruct (Z.eqb_spec (resp_status r) 401) as [| _]; [done |].
  repeat first
    [ apply inv_bind; [apply same_storage_trans | | intros ?]
    | apply inv_if
    | by apply inv_ret
    | by apply inv_throw
    | by apply inv_or_throw
    | apply inv_emit_storage ].
Qed.

(** What [request] does once a response has come back, for a state with a
    token. *)
Lemma request_on_response (P : Platform) (net : FetchRequest -> NetBehaviour)
    (config : ApiClient.ApiClientConfig) (endpoint : string)
    (options : ApiClient.RequestInit) (m : gmap string string) (tr : list Effect)
    (tok : string) (r : Response) :
  m !! ApiClient.tokenKey config = Some tok ->
  tok <> "" ->
  net (ApiClient.fetch_args config endpoint options tok) = Responds r ->
  ApiClient.request P net config endpoint options {| storage := Some m; trace := tr |}
  = try_catch (ApiClient.on_response P config (ApiClient.arms config options) r)
      (ApiClient.on_error P (ApiClient.arms config options))
      {| storage := Some m;
         trace := (tr ++ arm_log config options)
                  ++ [EFetch (ApiClient.fetch_args config endpoint options tok)] |}.
Proof.
  intros Hm Hne Hnet.
  rewrite (request_with_token P net config endpoint options m tr tok Hm Hne).
  unfold ApiClient.send, try_catch, bind, fetch, emit. simpl. by rewrite Hnet.
Qed.

(** A request made without a stored token, or with an empty one, fails on
    the spot with status 401, code [AUTH_001] and [canRetry] false: no
    timer is armed, nothing is sent and the state is unchanged.  [delete]
    fails the same way. *)
Theorem request_without_token (P : Platform) (net : FetchRequest -> NetBehaviour)
    (config : ApiClient.ApiClientConfig) (endpoint : string)
    (options : ApiClient.RequestInit) (opts : option ApiClient.RequestOptions) (s : St) :
  no_token (stored_token (ApiClient.tokenKey config) (storage s)) = true ->
  let missing := ThrowApi (new_ApiError P "No authentication token found" 401
                             (Some (JStr "AUTH_001")) None (Some false)) in
  ApiClient.request P net config endpoint options s = (Throw missing, s)
  /\ ApiClient.delete P net config endpoint opts s = (Throw missing, s).
Proof.
  intros Hno missing. split; [by apply request_no_token |].
  unfold ApiClient.delete, bind. by rewrite request_no_token.
Qed.

Lemma request_without_token_witness :
  let missing := ThrowApi (new_ApiError Sample.platform "No authentication token found"
                             401 (Some (JStr "AUTH_001")) None (Some false)) in
  ApiClient.get Sample.platform (Sample.always Stalls) (ApiClient.apiClient None)
    "/api/v1/tasks" None (start (Some ∅))
  = (Throw missing, start (Some ∅)).
Proof.
  intros missing.
  apply (request_without_token Sample.platform (Sample.always Stalls)
           (ApiClient.apiClient None) "/api/v1/tasks"
           {| ApiClient.init_method := Some "GET"; ApiClient.init_headers := None;
              ApiClient.init_body := None; ApiClient.init_signal := false |}
           None (start (Some ∅))).
  reflexivity.
Defined.

(** A 2xx response resolves the call and leaves the storage alone: a 204
    gives [undefined] without the body being read, any other 2xx status
    gives the parsed JSON body. *)
Theorem request_success (P : Platform) (net : FetchRequest -> NetBehaviour)
    (config : ApiClient.ApiClientConfig) (endpoint : string)
    (options : ApiClient.RequestInit) (m : gmap string string) (tr : list Effect)
    (tok : string) (r : Response) :
  m !! ApiClient.tokenKey config = Some tok ->
  tok <> "" ->
  net (ApiClient.fetch_args config endpoint options tok) = Responds r ->
  ok r = true ->
  let out := ApiClient.request P net config endpoint options
               {| storage := Some m; trace := tr |} in
  storage out.2 = Some m
  /\ (resp_status r = 204 -> out.1 = Return JUndefined)
  /\ (forall v, resp_status r <> 204 -> json r = Some v -> out.1 = Return v).
Proof.
  intros Hm Hne Hnet Hok out. subst out.
  assert (H401 : resp_status r <> 401).
  { intros Heq. unfold ok in Hok. rewrite Heq in Hok. done. }
  rewrite (request_on_response P net config endpoint options m tr tok r Hm Hne Hnet).
  unfold ApiClient.on_response, ApiClient.on_error. run.
  destruct (Z.eqb_spec (resp_status r) 401) as [| _]; [done |].
  rewrite Hok. simpl.
  destruct (Z.eqb_spec (resp_status r) 204) as [H204 | H204].
  - destruct (ApiClient.arms config options); simpl; by repeat split.
  - destruct (ApiClient.arms config options), (json r) as [v |]; simpl;
      repeat split; try done; intros; by simplify_eq.
Qed.

Lemma request_success_witness :
  let tasks := JObj [("tasks", JArr []); ("total", JNum 0)] in
  let r := {| resp_status := 200; json := Some tasks |} in
  let out := ApiClient.get Sample.platform (Sample.always (Responds r))
               (ApiClient.apiClient None) "/api/v1/tasks" None (Sample.stored "a.b.c") in
  out.1 = Return tasks /\ storage out.2 = Some {[ "auth_token" := "a.b.c" ]}.
Proof.
  intros tasks r out.
  destruct (request_success Sample.platform (Sample.always (Responds r))
              (ApiClient.apiClient None) "/api/v1/tasks"
              {| ApiClient.init_method := Some "GET"; ApiClient.init_headers := None;
                 ApiClient.init_body := None; ApiClient.init_signal := false |}
              {[ "auth_token" := "a.b.c" ]} [] "a.b.c" r) as (Hsto & _ & Hbody).
  - reflexivity.
  - discriminate.
  - reflexivity.
  - reflexivity.
  - split; [apply (Hbody tasks); [discriminate | reflexivity] | exact Hsto].
Defined.

(** A 2xx response other than 204 whose body is not JSON is reported as a
    network failure: status 0 and [canRetry] set, although the server
    answered with success. *)
Theorem request_unreadable_success_body (P : Platform)
    (net : FetchRequest -> NetBehaviour) (config : ApiClient.ApiClientConfig)
    (endpoint : string) (options : ApiClient.RequestInit)
    (m : gmap string string) (tr : list Effect) (tok : string) (r : Response) :
  m !! ApiClient.tokenKey config = Some tok ->
  tok <> "" ->
  net (ApiClient.fetch_args config endpoint options tok) = Responds r ->
  ok r = true ->
  resp_status r <> 204 ->
  json r = None ->
  (ApiClient.request P net config endpoint options {| storage := Some m; trace := tr |}).1
  = Throw (network_error P).
Proof.
  intros Hm Hne Hnet Hok H204 Hjson.
  assert (H401 : resp_status r <> 401).
  { intros Heq. unfold ok in Hok. rewrite Heq in Hok. done. }
  rewrite (request_on_response P net config endpoint options m tr tok r Hm Hne Hnet).
  unfold ApiClient.on_response, ApiClient.on_error, network_error. run.
  destruct (Z.eqb_spec (resp_status r) 401) as [| _]; [done |].
  rewrite Hok. simpl.
  destruct (Z.eqb_spec (resp_status r) 204) as [| _]; [done |].
  rewrite Hjson. by destruct (ApiClient.arms config options).
Qed.

Lemma request_unreadable_success_body_witness :
  let r := {| resp_status := 200; json := None |} in
  (ApiClient.delete Sample.platform (Sample.always (Responds r))
     (ApiClient.apiClient None) "/api/v1/tasks/7" None (Sample.stored "a.b.c")).1
  = Throw (network_error Sample.platform).
Proof.
  intros r. unfold ApiClient.delete, bind.
  pose proof (request_unreadable_success_body Sample.platform
                (Sample.always (Responds r)) (ApiClient.apiClient None) "/api/v1/tasks/7"
                {| ApiClient.init_method := Some "DELETE"; ApiClient.init_headers := None;
                   ApiClient.init_body := None; ApiClient.init_signal := false |}
                {[ "auth_token" := "a.b.c" ]} [] "a.b.c" r
                eq_refl ltac:(discriminate) eq_refl eq_refl ltac:(discriminate) eq_refl)
    as Hreq.
  simpl in Hreq |- *. unfold Sample.stored.
  destruct (ApiClient.request _ _ _ _ _ _) as [[v | t |] s']; simpl in *; congruence.
Defined.

(** [on_response] and [on_error] with a live timer first disarm it and then
    go on as they would without one. *)
Lemma on_response_armed (P : Platform) (config : ApiClient.ApiClientConfig)
    (r : Response) (s : St) :
  ApiClient.on_response P config true r s
  = ApiClient.on_response P config false r
      {| storage := storage s; trace := trace s ++ [EClearTimeout] |}.
Proof. reflexivity. Qed.

Lemma on_error_armed (P : Platform) (error : Thrown) (s : St) :
  ApiClient.on_error P true error s
  = ApiClient.on_error P false error
      {| storage := storage s; trace := trace s ++ [EClearTimeout] |}.
Proof. reflexivity. Qed.

Lemma emits_keeps_log {A} Q (m : M A) (s : St) (e : Effect) :
  emits_only Q m -> In e (trace s) -> In e (trace (m s).2).
Proof.
  intros Hm Hin. destruct (Hm s) as (extra & -> & _).
  apply in_or_app. by left.
Qed.

(** [send], case by case on what the backend does. *)
Lemma send_cases (P : Platform) (net : FetchRequest -> NetBehaviour)
    (config : ApiClient.ApiClientConfig) (armed : bool) (req : FetchRequest) (s : St) :
  ApiClient.send P net config armed req s
  = let s1 := {| storage := storage s; trace := trace s ++ [EFetch req] |} in
    match net req with
    | Responds r =>
        try_catch (ApiClient.on_response P config armed r) (ApiClient.on_error P armed) s1
    | Fails e => ApiClient.on_error P armed (ThrowJs e) s1
    | Stalls =>
        if signal req then ApiClient.on_error P armed (ThrowJs abort_error) s1
        else (Hang, s1)
    end.
Proof.
  unfold ApiClient.send, try_catch, bind, fetch, emit. simpl.
  destruct (net req) as [r | e |]; simpl; [done | done |].
  by destruct (signal req).
Qed.

Lemma request_storage_cases (P : Platform) (net : FetchRequest -> NetBehaviour)
    (config : ApiClient.ApiClientConfig) (endpoint : string)
    (options : ApiClient.RequestInit) (m : gmap string string) (tr : list Effect)
    (tok : string) :
  m !! ApiClient.tokenKey config = Some tok ->
  tok <> "" ->
  storage (ApiClient.request P net config endpoint options
             {| storage := Some m; trace := tr |}).2
  = match net (ApiClient.fetch_args config endpoint options tok) with
    | Responds r =>
        if resp_status r =? 401 then Some (base.delete (ApiClient.tokenKey config) m)
        else Some m
    | _ => Some m
    end.
Proof.
  intros Hm Hne.
  destruct (net (ApiClient.fetch_args config endpoint options tok)) as [r | e |] eqn:Hnet.
  - rewrite (request_on_response P net config endpoint options m tr tok r Hm Hne Hnet).
    destruct (Z.eqb_spec (resp_status r) 401) as [H401 | H401].
    + unfold ApiClient.on_response, ApiClient.on_error. run. rewrite H401. simpl.
      by destruct (ApiClient.arms config options).
    + match goal with |- storage (try_catch ?body ?handler ?s).2 = _ =>
        assert (Hinv : run_inv same_storage (try_catch body handler))
      end.
      { apply inv_try_catch; [apply same_storage_trans | |].
        - by apply on_response_inv.
        - intros t. apply on_error_inv. }
      apply Hinv.
  - rewrite (request_with_token P net config endpoint options m tr tok Hm Hne).
    unfold ApiClient.send, ApiClient.on_error. run. rewrite Hnet. simpl.
    by destruct (ApiClient.arms config options), (_ && _).
  - rewrite (request_with_token P net config endpoint options m tr tok Hm Hne).
    unfold ApiClient.send, ApiClient.on_error. run. rewrite Hnet. simpl.
    by destruct (ApiClient.arms config options).
Qed.

(** The storage after a call: the token is dropped exactly when the
    backend answered 401; every other answer, a failure or a stall leaves
    the storage as it was.  Nothing is ever written. *)
Theorem request_storage (P : Platform) (net : FetchRequest -> NetBehaviour)
    (config : ApiClient.ApiClientConfig) (endpoint : string)
    (options : ApiClient.RequestInit) (m : gmap string string) (tr : list Effect)
    (tok : string) :
  m !! ApiClient.tokenKey config = Some tok ->
  tok <> "" ->
  storage (ApiClient.request P net config endpoint options
             {| storage := Some m; trace := tr |}).2
  = match net (ApiClient.fetch_args config endpoint options tok) with
    | Responds r =>
        if resp_status r =? 401 then Some (base.delete (ApiClient.tokenKey config) m)
        else Some m
    | _ => Some m
    end.
Proof. apply request_storage_cases. Qed.

Lemma request_storage_witness :
  let options := {| ApiClient.init_method := Some "GET"; ApiClient.init_headers := None;
                    ApiClient.init_body := None; ApiClient.init_signal := false |} in
  let r := {| resp_status := 403; json := Some (JObj []) |} in
  storage (ApiClient.request Sample.platform (Sample.always (Responds r))
             (ApiClient.apiClient None) "/api/v1/tasks" options
             (Sample.stored "a.b.c")).2
  = Some {[ "auth_token" := "a.b.c" ]}.
Proof.
  intros options r.
  apply (request_storage Sample.platform (Sample.always (Responds r))
           (ApiClient.apiClient None) "/api/v1/tasks" options
           {[ "auth_token" := "a.b.c" ]} [] "a.b.c").
  - reflexivity.
  - discriminate.
Defined.

(** With a stored token and the timer armed, a call arms exactly one
    timer, of the configured delay, and disarms it on every path: after the
    response, after a rejected [fetch], and after the timer itself has
    fired.  A backend that never answers does not leave the call pending:
    it ends in an [ApiError] with status 0 and [canRetry] set. *)
Theorem request_armed_timer (P : Platform) (net : FetchRequest -> NetBehaviour)
    (config : ApiClient.ApiClientConfig) (endpoint : string)
    (options : ApiClient.RequestInit) (m : gmap string string) (tr : list Effect)
    (tok : string) :
  m !! ApiClient.tokenKey config = Some tok ->
  tok <> "" ->
  ApiClient.arms config options = true ->
  let out := ApiClient.request P net config endpoint options
               {| storage := Some m; trace := tr |} in
  timers (trace out.2) = (timers tr ++ [ApiClient.timeout config])%list
  /\ In EClearTimeout (trace out.2)
  /\ (net (ApiClient.fetch_args config endpoint options tok) = Stalls ->
      exists e, out.1 = Throw (ThrowApi e) /\ status e = 0 /\ canRetry e = true).
Proof.
  intros Hm Hne Harm out. subst out.
  destruct (request_fetches_once P net config endpoint options m tr tok Hm Hne)
    as [_ Ht].
  split; [rewrite Ht; unfold arm_log; by rewrite Harm |].
  rewrite (request_with_token P net config endpoint options m tr tok Hm Hne).
  rewrite send_cases, Harm; cbn zeta.
  change (signal (ApiClient.fetch_args config endpoint options tok))
    with (ApiClient.arms config options).
  rewrite Harm.
  split.
  - assert (Hlast : forall tr', In EClearTimeout (tr' ++ [EClearTimeout])).
    { intros tr'. apply in_or_app. right. by left. }
    destruct (net _) as [r | e |].
    + unfold try_catch. rewrite on_response_armed.
      match goal with |- In _ (trace (match ?body ?s with _ => _ end).2) =>
        pose proof (emits_keeps_log housekeeping body s EClearTimeout
                      (on_response_housekeeping P config false r) (Hlast _)) as Hin;
        destruct (body s) as [[v | t |] s1]
      end; [done | | done].
      by apply (emits_keeps_log housekeeping _ _ _ (on_error_housekeeping P true t)).
    + rewrite on_error_armed.
      apply (emits_keeps_log housekeeping _ _ _ (on_error_housekeeping P false _)).
      apply Hlast.
    + rewrite on_error_armed.
      apply (emits_keeps_log housekeeping _ _ _ (on_error_housekeeping P false _)).
      apply Hlast.
  - intros ->. eexists. split; [reflexivity |]. by split.
Qed.

Lemma request_armed_timer_witness :
  let options := {| ApiClient.init_method := Some "GET"; ApiClient.init_headers := None;
                    ApiClient.init_body := None; ApiClient.init_signal := false |} in
  let out := ApiClient.request Sample.platform (Sample.always Stalls)
               (ApiClient.apiClient None) "/api/v1/tasks" options
               (Sample.stored "a.b.c") in
  timers (trace out.2) = [10000]
  /\ In EClearTimeout (trace out.2)
  /\ exists e, out.1 = Throw (ThrowApi e) /\ status e = 0 /\ canRetry e = true.
Proof.
  intros options out.
  destruct (request_armed_timer Sample.platform (Sample.always Stalls)
              (ApiClient.apiClient None) "/api/v1/tasks" options
              {[ "auth_token" := "a.b.c" ]} [] "a.b.c")
    as (Htimers & Hclear & Hstall).
  - reflexivity.
  - discriminate.
  - reflexivity.
  - split; [exact Htimers |]. split; [exact Hclear |]. apply Hstall. reflexivity.
Defined.

(** No timer is armed when the configured timeout is 0 or the caller
    passes its own signal; that signal is not handed on to [fetch], and a
    backend that does not answer then leaves the call pending for ever. *)
Theorem request_unarmed_stall (P : Platform) (net : FetchRequest -> NetBehaviour)
    (config : ApiClient.ApiClientConfig) (endpoint : string)
    (options : ApiClient.RequestInit) (m : gmap string string) (tr : list Effect)
    (tok : string) :
  m !! ApiClient.tokenKey config = Some tok ->
  tok <> "" ->
  ApiClient.timeout config = 0 \/ ApiClient.init_signal options = true ->
  net (ApiClient.fetch_args config endpoint options tok) = Stalls ->
  signal (ApiClient.fetch_args config endpoint options tok) = false
  /\ ApiClient.request P net config endpoint options {| storage := Some m; trace := tr |}
     = (Hang, {| storage := Some m;
                 trace := tr ++ [EFetch (ApiClient.fetch_args config endpoint
                                           options tok)] |}).
Proof.
  intros Hm Hne Hoff Hnet.
  assert (Harm : ApiClient.arms config options = false).
  { unfold ApiClient.arms, ApiClient.effective_timeout.
    destruct Hoff as [-> | ->]; [by destruct (ApiClient.init_signal options) | done]. }
  split; [exact Harm |].
  rewrite (request_with_token P net config endpoint options m tr tok Hm Hne).
  unfold ApiClient.send, arm_log. run. rewrite Hnet. simpl. rewrite Harm. simpl.
  by rewrite app_nil_r.
Qed.

Lemma request_unarmed_stall_witness :
  let config := {| ApiClient.baseUrl := "http://localhost:8000";
                   ApiClient.tokenKey := "auth_token";
                   ApiClient.timeout := 0 |} in
  (ApiClient.get Sample.platform (Sample.always Stalls) config "/api/v1/tasks" None
     (Sample.stored "a.b.c")).1 = Hang.
Proof.
  intros config. unfold ApiClient.get.
  destruct (request_unarmed_stall Sample.platform (Sample.always Stalls) config
              "/api/v1/tasks"
              {| ApiClient.init_method := Some "GET"; ApiClient.init_headers := None;
                 ApiClient.init_body := None; ApiClient.init_signal := false |}
              {[ "auth_token" := "a.b.c" ]} [] "a.b.c") as [_ Hrun].
  - reflexivity.
  - discriminate.
  - left. reflexivity.
  - reflexivity.
  - unfold Sample.stored. simpl in Hrun |- *. by rewrite Hrun.
Defined.

Lemma request_network_failure_witness :
  let options := {| ApiClient.init_method := Some "GET"; ApiClient.init_headers := None;
                    ApiClient.init_body := None; ApiClient.init_signal := false |} in
  let offline := type_error "Failed to fetch" in
  let renamed := {| err_class := TypeErrorC; err_name := "AbortError";
                    err_message := "aborted" |} in
  let run e := (ApiClient.request Sample.platform (Sample.always (Fails e))
                  (ApiClient.apiClient None) "/api/v1/tasks" options
                  (Sample.stored "a.b.c")).1 in
  (message <$> thrown_api (run offline)) = Some "Network error. Check your connection."
  /\ (message <$> thrown_api (run renamed)) = Some "Request timeout"
  /\ (message <$> thrown_api (run abort_error))
     = Some "Network error. Check your connection.".
Proof.
  intros options offline renamed run. subst run. unfold Sample.stored.
  split; [| split].
  - rewrite (request_network_failure Sample.platform (Sample.always (Fails offline))
               (ApiClient.apiClient None) "/api/v1/tasks" options
               {[ "auth_token" := "a.b.c" ]} [] "a.b.c" offline);
      [reflexivity | reflexivity | discriminate | reflexivity].
  - rewrite (request_network_failure Sample.platform (Sample.always (Fails renamed))
               (ApiClient.apiClient None) "/api/v1/tasks" options
               {[ "auth_token" := "a.b.c" ]} [] "a.b.c" renamed);
      [reflexivity | reflexivity | discriminate | reflexivity].
  - rewrite (request_network_failure Sample.platform (Sample.always (Fails abort_error))
               (ApiClient.apiClient None) "/api/v1/tasks" options
               {[ "auth_token" := "a.b.c" ]} [] "a.b.c" abort_error);
      [reflexivity | reflexivity | discriminate | reflexivity].
Defined.

Lemma request_http_error_witness :
  let options := {| ApiClient.init_method := Some "GET"; ApiClient.init_headers := None;
                    ApiClient.init_body := None; ApiClient.init_signal := false |} in
  let r := {| resp_status := 404; json := None |} in
  exists e,
    thrown_api (ApiClient.request Sample.platform (Sample.always (Responds r))
                  (ApiClient.apiClient None) "/api/v1/tasks/7" options
                  (Sample.stored "a.b.c")).1 = Some e
    /\ status e = 404 /\ canRetry e = false
    /\ message e = "The requested item was not found".
Proof.
  intros options r.
  destruct (request_http_error Sample.platform (Sample.always (Responds r))
              (ApiClient.apiClient None) "/api/v1/tasks/7" options
              {[ "auth_token" := "a.b.c" ]} [] "a.b.c" r)
    as (e & He & Hst & Hretry & _ & H404).
  - reflexivity.
  - discriminate.
  - reflexivity.
  - discriminate.
  - reflexivity.
  - exists JUndefined. reflexivity.
  - exists e. split; [exact He |]. split; [exact Hst |]. split; [exact Hretry |].
    apply H404. reflexivity.
Defined.

(** The details of an error response whose body is not the JSON value
    [null], so that its properties can be read: the error code is the
    body's [error_code] when truthy, else its [errorCode] when truthy, else
    [null]; statuses 400, 403 and 422 get fixed messages whatever message
    such a body carries, and a status outside the table gets the body's
    [message] when truthy and [Request failed] otherwise. *)
Theorem request_error_details (P : Platform) (net : FetchRequest -> NetBehaviour)
    (config : ApiClient.ApiClientConfig) (endpoint : string)
    (options : ApiClient.RequestInit) (m : gmap string string) (tr : list Effect)
    (tok : string) (r : Response) (code1 code2 msg : JSValue) :
  m !! ApiClient.tokenKey config = Some tok ->
  tok <> "" ->
  net (ApiClient.fetch_args config endpoint options tok) = Responds r ->
  resp_status r <> 401 ->
  ok r = false ->
  get_prop (error_data r) "error_code" = Some code1 ->
  get_prop (error_data r) "errorCode" = Some code2 ->
  get_prop (error_data r) "message" = Some msg ->
  exists e,
    thrown_api (ApiClient.request P net config endpoint options
                  {| storage := Some m; trace := tr |}).1 = Some e
    /\ errorCode e = (if truthy code1 then code1
                      else if truthy code2 then code2 else JNull)
    /\ (resp_status r = 400 -> message e = "Invalid request")
    /\ (resp_status r = 403 -> message e = "You don't have access to this resource")
    /\ (resp_status r = 422 -> message e = "Please check your input")
    /\ (~ In (resp_status r) [400; 403; 404; 422; 500] ->
        message e = if truthy msg then ToString P msg else "Request failed").
Proof.
  intros Hm Hne Hnet H401 Hok Hc1 Hc2 Hmsg.
  rewrite (request_on_response P net config endpoint options m tr tok r Hm Hne Hnet).
  unfold ApiClient.on_response, ApiClient.on_error, ApiClient.or_else,
    ApiClient.status_message, js_or. run.
  destruct (Z.eqb_spec (resp_status r) 401) as [| _]; [done |].
  rewrite Hok. simpl. fold (error_data r). rewrite Hc1.
  destruct (ApiClient.arms config options); simpl;
    destruct (truthy code1); simpl; rewrite ?Hc2; simpl;
    repeat (match goal with
            | |- context [resp_status r =? ?n] =>
                destruct (Z.eqb_spec (resp_status r) n) as [Heq | ?];
                [try rewrite Heq in *|]
            end; simpl);
    rewrite ?Hmsg; simpl; eexists; (split; [reflexivity |]); simpl;
    repeat split; try done; try lia;
    try (by destruct (truthy code2)); try (by destruct (truthy msg));
    try (intros Hin; exfalso; apply Hin; simpl; tauto).
Qed.

Lemma request_error_details_witness :
  let options := {| ApiClient.init_method := Some "POST"; ApiClient.init_headers := None;
                    ApiClient.init_body := Some "{}"; ApiClient.init_signal := false |} in
  let body := JObj [("errorCode", JStr "TASK_409"); ("message", JStr "Already exists")] in
  let r := {| resp_status := 409; json := Some body |} in
  exists e,
    thrown_api (ApiClient.request Sample.platform (Sample.always (Responds r))
                  (ApiClient.apiClient None) "/api/v1/tasks" options
                  (Sample.stored "a.b.c")).1 = Some e
    /\ errorCode e = JStr "TASK_409"
    /\ message e = "Already exists".
Proof.
  intros options body r.
  destruct (request_error_details Sample.platform (Sample.always (Responds r))
              (ApiClient.apiClient None) "/api/v1/tasks" options
              {[ "auth_token" := "a.b.c" ]} [] "a.b.c" r
              JUndefined (JStr "TASK_409") (JStr "Already exists"))
    as (e & He & Hcode & _ & _ & _ & Hother); try reflexivity; try discriminate.
  exists e. split; [exact He |]. split; [exact Hcode |].
  apply Hother. simpl. intuition discriminate.
Defined.

(** After a 401 the token is gone, so the next call fails on the spot with
    the missing-token error and sends nothing. *)
Theorem unauthorized_then_request (P : Platform) (net : FetchRequest -> NetBehaviour)
    (config : ApiClient.ApiClientConfig) (endpoint endpoint' : string)
    (options options' : ApiClient.RequestInit) (m : gmap string string)
    (tr : list Effect) (tok : string) (r : Response) :
  m !! ApiClient.tokenKey config = Some tok ->
  tok <> "" ->
  net (ApiClient.fetch_args config endpoint options tok) = Responds r ->
  resp_status r = 401 ->
  let s1 := (ApiClient.request P net config endpoint options
               {| storage := Some m; trace := tr |}).2 in
  ApiClient.request P net config endpoint' options' s1
  = (Throw (ThrowApi (new_ApiError P "No authentication token found" 401
                        (Some (JStr "AUTH_001")) None (Some false))), s1).
Proof.
  intros Hm Hne Hnet H401 s1.
  apply request_no_token. subst s1.
  rewrite (request_storage_cases P net config endpoint options m tr tok Hm Hne).
  rewrite Hnet, H401. simpl. by rewrite lookup_delete_eq.
Qed.

Lemma unauthorized_then_request_witness :
  let options := {| ApiClient.init_method := Some "GET"; ApiClient.init_headers := None;
                    ApiClient.init_body := None; ApiClient.init_signal := false |} in
  let r := {| resp_status := 401; json := None |} in
  let net := Sample.always (Responds r) in
  let s1 := (ApiClient.request Sample.platform net (ApiClient.apiClient None)
               "/api/v1/tasks" options (Sample.stored "a.b.c")).2 in
  (ApiClient.request Sample.platform net (ApiClient.apiClient None)
     "/api/v1/tasks/7" options s1).2 = s1.
Proof.
  intros options r net s1. subst s1. unfold Sample.stored.
  rewrite (unauthorized_then_request Sample.platform net (ApiClient.apiClient None)
             "/api/v1/tasks" "/api/v1/tasks/7" options options
             {[ "auth_token" := "a.b.c" ]} [] "a.b.c" r);
    [reflexivity | reflexivity | discriminate | reflexivity | reflexivity].
Defined.

(** ** The verbs *)

Lemma delete_log (P : Platform) (net : FetchRequest -> NetBehaviour)
    (config : ApiClient.ApiClientConfig) (endpoint : string)
    (opts : option ApiClient.RequestOptions) (s : St) :
  trace (ApiClient.delete P net config endpoint opts s).2
  = trace (ApiClient.request P net config endpoint
             {| ApiClient.init_method := Some "DELETE";
                ApiClient.init_headers := opts ≫= ApiClient.opt_headers;
                ApiClient.init_body := None;
                ApiClient.init_signal := false |} s).2.
Proof.
  unfold ApiClient.delete, bind.
  by destruct (ApiClient.request _ _ _ _ _ _) as [[v | t |] s'].
Qed.

(** With a stored token each verb sends exactly one request, to the base
    URL followed by the endpoint, with its own method; [post], [put] and
    [patch] carry [JSON.stringify(data)] as body, [get] and [delete] carry
    none.  The headers are the defaults overridden by the caller's. *)
Theorem verbs_send_one_request (P : Platform) (net : FetchRequest -> NetBehaviour)
    (config : ApiClient.ApiClientConfig) (endpoint : string) (data : JSValue)
    (opts : option ApiClient.RequestOptions) (m : gmap string string)
    (tr : list Effect) (tok : string) :
  m !! ApiClient.tokenKey config = Some tok ->
  tok <> "" ->
  let sent (call : M JSValue) :=
    fetched (trace (call {| storage := Some m; trace := tr |}).2) in
  let expected (verb : string) (payload : option string) :=
    (fetched tr
     ++ [{| url := ApiClient.baseUrl config +:+ endpoint;
            method := verb;
            headers := ApiClient.spread (ApiClient.default_headers tok)
                         (opts ≫= ApiClient.opt_headers);
            body := payload;
            signal := negb (ApiClient.timeout config =? 0) |}])%list in
  sent (ApiClient.get P net config endpoint opts) = expected "GET" None
  /\ sent (ApiClient.post P net config endpoint data opts)
     = expected "POST" (JSON_stringify P data)
  /\ sent (ApiClient.put P net config endpoint data opts)
     = expected "PUT" (JSON_stringify P data)
  /\ sent (ApiClient.patch P net config endpoint data opts)
     = expected "PATCH" (JSON_stringify P data)
  /\ sent (ApiClient.delete P net config endpoint opts) = expected "DELETE" None.
Proof.
  intros Hm Hne sent expected. subst sent expected. simpl.
  rewrite delete_log.
  unfold ApiClient.get, ApiClient.post, ApiClient.put, ApiClient.patch.
  repeat split;
    match goal with
    | |- fetched (trace (ApiClient.request P net config endpoint ?o _).2) = _ =>
        destruct (request_fetches_once P net config endpoint o m tr tok Hm Hne)
          as [Hone _]; exact Hone
    end.
Qed.

Lemma verbs_send_one_request_witness :
  let data := JObj [("title", JStr "Buy milk")] in
  let out := ApiClient.post Sample.platform (Sample.always Stalls)
               (ApiClient.apiClient None) "/api/v1/tasks" data None
               (Sample.stored "a.b.c") in
  exists req,
    fetched (trace out.2) = [req]
    /\ url req = "http://localhost:8000/api/v1/tasks"
    /\ method req = "POST"
    /\ body req = Some "{}".
Proof.
  intros data out.
  destruct (verbs_send_one_request Sample.platform (Sample.always Stalls)
              (ApiClient.apiClient None) "/api/v1/tasks" data None
              {[ "auth_token" := "a.b.c" ]} [] "a.b.c")
    as (_ & Hpost & _); [reflexivity | discriminate |].
  eexists. split; [exact Hpost |]. repeat split.
Defined.

(** ** Task endpoints *)

(** Different task ids in the safe integer range, where [String(id)] is
    the decimal numeral, address different endpoints. *)
Theorem task_path_distinct (P : Platform) (a b : Z) :
  safe_integer a = true ->
  safe_integer b = true ->
  a <> b ->
  TaskApi.task_path P a <> TaskApi.task_path P b.
Proof.
  intros Ha Hb Hne Heq. apply Hne. unfold TaskApi.task_path in Heq. simpl in Heq.
  rewrite Ha, Hb in Heq.
  apply (inj (String.app "/api/v1/tasks/")) in Heq.
  by apply (inj pretty) in Heq.
Qed.

Lemma task_path_distinct_witness :
  TaskApi.task_path Sample.platform 7 <> TaskApi.task_path Sample.platform 70.
Proof.
  apply (task_path_distinct Sample.platform 7 70); [reflexivity | reflexivity |].
  discriminate.
Defined.

(** The task verbs address [/api/v1/tasks] for creation and
    [/api/v1/tasks/] followed by [String(id)] otherwise, with the methods
    POST, GET, PUT, PATCH and DELETE, each through one request of the
    default client. *)
Theorem task_verbs_requests (P : Platform) (net : FetchRequest -> NetBehaviour)
    (env : option string) (id : Z) (data : JSValue) (m : gmap string string)
    (tr : list Effect) (tok : string) :
  m !! "auth_token" = Some tok ->
  tok <> "" ->
  let base := ApiClient.baseUrl (ApiClient.apiClient env) in
  let sent (call : M JSValue) :=
    map (fun req => (method req, url req, body req))
      (fetched (trace (call {| storage := Some m; trace := [] |}).2)) in
  let item := base +:+ "/api/v1/tasks/" +:+ ToString P (JNum id) in
  sent (TaskApi.getTask P net env id) = [("GET", item, None)]
  /\ sent (TaskApi.createTask P net env data)
     = [("POST", base +:+ "/api/v1/tasks", JSON_stringify P data)]
  /\ sent (TaskApi.updateTask P net env id data) = [("PUT", item, JSON_stringify P data)]
  /\ sent (TaskApi.patchTask P net env id data) = [("PATCH", item, JSON_stringify P data)]
  /\ sent (TaskApi.deleteTask P net env id) = [("DELETE", item, None)].
Proof.
  intros Hm Hne base sent item. subst sent. simpl.
  unfold TaskApi.getTask, TaskApi.createTask, TaskApi.updateTask, TaskApi.patchTask,
    TaskApi.deleteTask.
  rewrite delete_log.
  unfold ApiClient.get, ApiClient.post, ApiClient.put, ApiClient.patch.
  repeat split;
    match goal with
    | |- map _ (fetched (trace (ApiClient.request P net ?c ?e ?o _).2)) = _ =>
        destruct (request_fetches_once P net c e o m [] tok Hm Hne) as [Hone _];
        rewrite Hone
    end; reflexivity.
Qed.

Lemma task_verbs_requests_witness :
  map (fun req => (method req, url req, body req))
    (fetched (trace (TaskApi.deleteTask Sample.platform (Sample.always Stalls) None 7
                       (Sample.stored "a.b.c")).2))
  = [("DELETE", "http://localhost:8000/api/v1/tasks/7", None)].
Proof.
  destruct (task_verbs_requests Sample.platform (Sample.always Stalls) None 7 JNull
              {[ "auth_token" := "a.b.c" ]} [] "a.b.c")
    as (_ & _ & _ & _ & Hdelete); [reflexivity | discriminate |].
  exact Hdelete.
Defined.

(** ** Query encoding *)

Lemma all_chars_app (f : ascii -> bool) (a b : string) :
  all_chars f (a +:+ b) = all_chars f a && all_chars f b.
Proof.
  induction a as [| c a IH]; [done |].
  simpl. by rewrite IH, andb_assoc.
Qed.

Lemma urlencode_byte_safe (c : ascii) :
  all_chars query_safe (TaskApi.urlencode_byte c) = true.
Proof. destruct c as [[] [] [] [] [] [] [] []]; vm_compute; reflexivity. Qed.

(** Whatever the input, [urlencode] yields only letters, digits, [*], [-],
    [.], [_], [+] and [%]: no [&], [=], [?] or [#] of a value reaches the
    query string. *)
Theorem urlencode_alphabet (s : string) :
  all_chars query_safe (TaskApi.urlencode s) = true.
Proof.
  induction s as [| c rest IH]; [done |].
  simpl. by rewrite all_chars_app, urlencode_byte_safe, IH.
Qed.

(** Text made of letters, digits, [*], [-], [.] and [_] is encoded as
    itself. *)
Theorem urlencode_unreserved (s : string) :
  all_chars TaskApi.unreserved s = true -> TaskApi.urlencode s = s.
Proof.
  induction s as [| c rest IH]; [done |].
  simpl. intros [Hc Hrest]%andb_true_iff.
  unfold TaskApi.urlencode_byte. rewrite Hc. simpl. by rewrite IH.
Qed.

Lemma urlencode_unreserved_witness :
  TaskApi.urlencode "is_completed" = "is_completed".
Proof. apply (urlencode_unreserved "is_completed"). reflexivity. Defined.

(** ** The authenticated request helper *)

(** [apiRequest] sends exactly one request and never touches the storage.
    The request carries the caller's [Authorization] header when there is
    one; otherwise [Bearer <token>] when a non-empty token is stored, and
    no [Authorization] header at all when none is. *)
Theorem apiRequest_sends (P : Platform) (net : FetchRequest -> NetBehaviour)
    (base endpoint : string) (options : ApiClient.RequestInit) (s : St) :
  let out := AuthRequest.apiRequest P net base endpoint options s in
  let token := stored_token "auth_token" (storage s) in
  let req := AuthRequest.apiRequest_args base endpoint options token in
  storage out.2 = storage s
  /\ fetched (trace out.2) = (fetched (trace s) ++ [req])%list
  /\ headers req !! "Authorization"
     = match ApiClient.init_headers options ≫= (fun h => h !! "Authorization") with
       | Some mine => Some mine
       | None => if no_token token then None
                 else Some ("Bearer " +:+ default "" token)
       end.
Proof.
  intros out token req.
  assert (Hrun : out = bind (fetch net req)
                         (fun response =>
                            if negb (ok response) then
                              do errorData <- response_json_or_empty response;
                              do detail <- prop errorData "detail";
                              throw (ThrowJs (plain_error
                                (ToString P
                                   (js_or detail
                                      (JStr ("HTTP error! status: "
                                             +:+ ToString P (JNum (resp_status response))))))))
                            else response_json response) s).
  { subst out req token. unfold AuthRequest.apiRequest, Auth.getAuthToken.
    unfold bind at 1 2, has_window, localStorage_getItem. simpl.
    by destruct s as [[m |] tr]. }
  split; [| split].
  - rewrite Hrun. run. destruct (net req) as [r | e |]; simpl; [| done | done].
    destruct (ok r); simpl; [by destruct (json r) |].
    by destruct (get_prop (default (JObj []) (json r)) "detail").
  - rewrite Hrun. run. destruct (net req) as [r | e |]; simpl; [| finish_run | finish_run].
    destruct (ok r); simpl; [destruct (json r); finish_run |].
    destruct (get_prop (default (JObj []) (json r)) "detail"); finish_run.
  - subst req. simpl. unfold ApiClient.spread, AuthRequest.token_headers.
    rewrite lookup_union.
    destruct (ApiClient.init_headers options) as [h |]; simpl.
    + destruct (h !! "Authorization"); simpl; [by destruct (_ !! _) |].
      destruct (no_token token); by simplify_map_eq.
    + rewrite lookup_empty. destruct (no_token token); by simplify_map_eq.
Qed.

(** A non-2xx answer to [apiRequest] whose body is not the JSON value
    [null], so that its [detail] can be read, is thrown as an [Error] whose
    message is that [detail] when truthy, and otherwise names the status,
    an HTTP status printing as its decimal digits.  A body that is not JSON
    counts as an empty object. *)
Theorem apiRequest_rejected (P : Platform) (net : FetchRequest -> NetBehaviour)
    (base endpoint : string) (options : ApiClient.RequestInit) (s : St)
    (r : Response) (detail : JSValue) :
  net (AuthRequest.apiRequest_args base endpoint options
         (stored_token "auth_token" (storage s))) = Responds r ->
  ok r = false ->
  0 <= resp_status r <= 599 ->
  get_prop (error_data r) "detail" = Some detail ->
  (AuthRequest.apiRequest P net base endpoint options s).1
  = Throw (ThrowJs (plain_error
                      (if truthy detail then ToString P detail
                       else "HTTP error! status: " +:+ pretty (resp_status r)))).
Proof.
  intros Hnet Hok Hstatus Hdetail.
  assert (Hsafe : safe_integer (resp_status r) = true).
  { unfold safe_integer. apply Z.leb_le. lia. }
  unfold AuthRequest.apiRequest, Auth.getAuthToken, js_or, error_data in *. run.
  destruct s as [[m |] tr]; simpl in *; rewrite Hnet; simpl; rewrite Hok; simpl;
    rewrite Hdetail; simpl; rewrite Hsafe; by destruct (truthy detail).
Qed.

Lemma apiRequest_rejected_witness :
  let options := {| ApiClient.init_method := None; ApiClient.init_headers := None;
                    ApiClient.init_body := None; ApiClient.init_signal := false |} in
  let r := {| resp_status := 503; json := None |} in
  (AuthRequest.apiRequest Sample.platform (Sample.always (Responds r))
     "http://127.0.0.1:8000" "/api/v1/tasks" options (start (Some ∅))).1
  = Throw (ThrowJs (plain_error "HTTP error! status: 503")).
Proof.
  intros options r.
  apply (apiRequest_rejected Sample.platform (Sample.always (Responds r))
           "http://127.0.0.1:8000" "/api/v1/tasks" options (start (Some ∅)) r JUndefined);
    try reflexivity.
  simpl. lia.
Defined.

Lemma checkAuthState_safe_witness :
  let s := Sample.stored "h.eyJzdWIiOiJ1MiIsImVtYWlsIjoidTJAeC5pbyJ9.s" in
  exists session s',
    Auth.checkAuthState Fixture.platform s = (Return session, s')
    /\ s' = s /\ is_Some (Auth.user session).
Proof.
  intros s.
  destruct (checkAuthState_safe Fixture.platform s)
    as (session & s' & Hrun & _ & _ & Hauth).
  exists session, s'. split; [exact Hrun |].
  apply Hauth.
  assert (Hfst : (Auth.checkAuthState Fixture.platform s).1 = Return session)
    by (by rewrite Hrun).
  vm_compute in Hfst. injection Hfst as <-. reflexivity.
Defined.
